(** * crew-review.py: the two writer tools, the task pipeline and the module
      globals of the review-collection script.

    The script is a thin layer over three libraries: pandas (table building
    and serialisation), Python's file objects, and the crewAI agent
    framework.  The script's own functions are embedded statement by
    statement; the library calls they make are given by small executable
    models, each in a module named after the library and each documented
    with the library routine it follows. *)

From Stdlib Require Import String Ascii List Bool Arith ZArith Lia.
From stdpp Require Import base strings list gmap pretty.

Import ListNotations.
Local Open Scope string_scope.
Local Open Scope list_scope.

(** ** Python values handed to the tools *)

(** The values of a record that the model covers: a text, an integer or
    [None] (the strings, integers and null of a JSON object).  Floats,
    booleans and nested values are not modelled. *)
Inductive value : Type :=
| VStr (s : string)
| VInt (z : Z)
| VNone.

Coercion VStr : string >-> value.

(** [str(z)] for an int: its decimal digits, a minus sign before them when
    it is negative. *)
Definition str_int (z : Z) : string := pretty z.

(** A record is a Python [dict] from field name to value: the list holds
    the dict's items in insertion order, and [dict_get] is the dict's
    lookup. *)
Definition record : Type := list (string * value).

Definition keys (r : record) : list string := map fst r.

Fixpoint dict_get (r : record) (k : string) : option value :=
  match r with
  | [] => None
  | (k', v) :: r' => if decide (k' = k) then Some v else dict_get r' k
  end.

(** ** pandas: building the frame *)

Module Pandas.

(** An element of a column: the Python object [Val v] taken from a
    record; the float [NaN] that stands where a record has no such key;
    [Float z], the float64 of the integer [z], in a column that pandas
    stores as floats.  (The float64 of [z] is [z] itself up to 2^53 in
    magnitude; the model goes no further.) *)
Inductive cell : Type :=
| Val (v : value)
| Float (z : Z)
| NaN.

Inductive dtype : Type := object | int64 | float64.

Record DataFrame : Type := mkDataFrame {
  columns : list string;
  values : list (list cell)
}.

(** [lib.fast_unique_multiple_list_gen(gen, sort=False)]: one pass over
    the key lists, appending a key to [uniques] the first time it is
    seen. *)
Fixpoint unique_append (uniques : list string) (buf : list string)
  : list string :=
  match buf with
  | [] => uniques
  | val :: buf' =>
      unique_append
        (if decide (val ∈ uniques) then uniques else uniques ++ [val]) buf'
  end.

Definition fast_unique_multiple_list_gen (gen : list (list string))
  : list string :=
  fold_left unique_append gen [].

(** [lib.dicts_to_array(dicts, columns)]: row [i], column [j] is
    [dicts[i][columns[j]]] when the key is present, [NaN] otherwise. *)
Definition entry (row : record) (col : string) : cell :=
  match dict_get row col with
  | Some v => Val v
  | None => NaN
  end.

Definition dict_row (cols : list string) (row : record) : list cell :=
  map (entry row) cols.

Definition dicts_to_array (dicts : list record) (cols : list string)
  : list (list cell) :=
  map (dict_row cols) dicts.

(** [content.T[j]]: column [j] of the object array. *)
Definition column (j : nat) (content : list (list cell)) : list cell :=
  map (fun row => nth j row NaN) content.

Definition is_str (c : cell) : bool :=
  match c with Val (VStr _) => true | _ => false end.

Definition is_int (c : cell) : bool :=
  match c with Val (VInt _) => true | _ => false end.

Definition is_none (c : cell) : bool :=
  match c with Val VNone => true | _ => false end.

Definition is_nan (c : cell) : bool :=
  match c with NaN => true | _ => false end.

(** [lib.maybe_convert_objects(arr)], the dtype of the result: a column
    that holds a text stays an object column; without a text, ints make an
    int64 column, or a float64 column when [None] or [NaN] stands among
    them; [None] and [NaN] alone make a float64 column when a [NaN] is
    there, and stay objects when all are [None].  (An int that does not fit
    64 bits keeps its column an object column; the model does not
    distinguish it.) *)
Definition maybe_convert_objects (objects : list cell) : dtype :=
  if existsb is_str objects then object
  else if existsb is_none objects || existsb is_nan objects then
    if existsb is_int objects then float64
    else if existsb is_nan objects then float64
    else object
  else if existsb is_int objects then int64
  else object.

(** The element as it stands in the converted column. *)
Definition astype (d : dtype) (c : cell) : cell :=
  match d, c with
  | float64, Val (VInt z) => Float z
  | float64, Val VNone => NaN
  | _, _ => c
  end.

(** [convert_object_array(list(content.T))]: every column goes through
    [maybe_convert_objects]. *)
Definition column_dtypes (ncols : nat) (content : list (list cell))
  : list dtype :=
  map (fun j => maybe_convert_objects (column j content)) (seq 0 ncols).

Definition convert_object_array (ncols : nat) (content : list (list cell))
  : list (list cell) :=
  map (zip_with astype (column_dtypes ncols content)) content.

(** [pd.DataFrame(data)] for [data] a list of dicts. *)
Definition of_records (data : list record) : DataFrame :=
  let cols := fast_unique_multiple_list_gen (map keys data) in
  let content := dicts_to_array data cols in
  {| columns := cols;
     values := convert_object_array (length cols) content |}.

End Pandas.

(** The ordered union of key sequences, written the way the specification
    words it: walk the keys in order and keep a key where it is first
    seen. *)
Fixpoint first_seen (ks : list string) : list string :=
  match ks with
  | [] => []
  | k :: ks' => k :: filter (fun k' => k' ≠ k) (first_seen ks')
  end.

Definition ordered_union (R : list record) : list string :=
  first_seen (concat (map keys R)).

(** A column in which an integer is turned into a float, told from the
    records: no record holds a text under the key, and some record holds
    [None] there or lacks the key. *)
Definition ints_as_floats (R : list record) (col : string) : bool :=
  forallb (fun r => match dict_get r col with
                    | Some (VStr _) => false
                    | _ => true
                    end) R
  && existsb (fun r => match dict_get r col with
                       | Some VNone | None => true
                       | _ => false
                       end) R.

(** The text a standard CSV reader is to give back for record [r] under
    [col]: a text as it is; an integer as its digits, with [.0] after them
    in a column of floats; nothing for [None] and for a missing key. *)
Definition field_text (R : list record) (r : record) (col : string)
  : string :=
  match dict_get r col with
  | Some (VStr s) => s
  | Some (VInt z) =>
      if ints_as_floats R col then str_int z +:+ ".0" else str_int z
  | Some VNone | None => ""
  end.


(** ** Text helpers *)

Definition LF : ascii := ascii_of_nat 10.
Definition CR : ascii := ascii_of_nat 13.
Definition space : ascii := " "%char.
Definition comma : ascii := ","%char.
Definition dquote : ascii := ascii_of_nat 34.

Definition str (c : ascii) : string := String c EmptyString.

(** [sep.join(parts)]. *)
Fixpoint join (sep : string) (parts : list string) : string :=
  match parts with
  | [] => ""
  | [p] => p
  | p :: ps => p +:+ sep +:+ join sep ps
  end.

(** [c * n]. *)
Fixpoint repeat_char (c : ascii) (n : nat) : string :=
  match n with
  | O => ""
  | S n' => String c (repeat_char c n')
  end.

(** [str.isspace] on the ASCII range: codes 9 to 13 and 28 to 32. *)
Definition is_space (c : ascii) : bool :=
  let n := nat_of_ascii c in
  (Nat.leb 9 n && Nat.leb n 13) || (Nat.leb 28 n && Nat.leb n 32).

(** [s.lstrip()], [s.rstrip()] and [s.strip()]. *)
Fixpoint lstrip (s : string) : string :=
  match s with
  | EmptyString => ""
  | String c s' => if is_space c then lstrip s' else s
  end.

Fixpoint rstrip (s : string) : string :=
  match s with
  | EmptyString => ""
  | String c s' =>
      match rstrip s' with
      | EmptyString => if is_space c then "" else str c
      | t => String c t
      end
  end.

Definition strip (s : string) : string := lstrip (rstrip s).

Fixpoint mem_char (c : ascii) (s : string) : bool :=
  match s with
  | EmptyString => false
  | String c' s' => if decide (c' = c) then true else mem_char c s'
  end.

(** [all(p(c) for c in s)]. *)
Fixpoint all_chars (p : ascii -> bool) (s : string) : bool :=
  match s with
  | EmptyString => true
  | String c s' => p c && all_chars p s'
  end.



(** The printable ASCII characters, space included: no line break, no
    escape character, nothing beyond one byte. *)
Definition printable_char (c : ascii) : bool :=
  let n := nat_of_ascii c in Nat.leb 32 n && Nat.leb n 126.


(** ** tabulate: the "pipe" format behind [DataFrame.to_markdown]

    tabulate gives every column a type, the most general of the types of
    its cells, and formats and aligns the column by it.  The model is of
    the columns typed [str], which are the columns that hold at least one
    text that is no number and no boolean: their cells are written as
    [f"{val}"] ([None] as the missing value [""]), stripped of surrounding
    white space and left aligned.  A column without such a text is typed
    as a number and then reformatted and right aligned, and a cell with a
    line break is folded over several lines: frames with such columns or
    cells are outside the model, and [text_frame] below says which frames
    are inside. *)

Module Tabulate.

Definition MIN_PADDING : nat := 2.

(** [_format(val, str, ...)]: [None] is the missing value, anything else is
    [f"{val}"]. *)
Definition _format (c : Pandas.cell) : string :=
  match c with
  | Pandas.Val (VStr s) => s
  | Pandas.Val (VInt z) => str_int z
  | Pandas.Val VNone => ""
  | Pandas.Float z => str_int z +:+ ".0"
  | Pandas.NaN => "nan"
  end.






(** [_align_column_choose_padfn], left alignment: the cells of a column
    are stripped ([PRESERVE_WHITESPACE] is off). *)
Definition cell_text (c : Pandas.cell) : string := strip (_format c).

(** [_padright(width, s)]. *)
Definition _padright (width : nat) (s : string) : string :=
  s +:+ repeat_char space (width - String.length s).

(** Width of column [j]: the header's width plus [MIN_PADDING], or the
    widest cell when that is larger. *)
Definition column_width (j : nat) (header : string)
    (rows : list (list string)) : nat :=
  fold_right Nat.max (String.length header + MIN_PADDING)
    (map (fun row => String.length (nth j row "")) rows).

Definition column_widths (headers : list string)
    (rows : list (list string)) : list nat :=
  imap (fun j h => column_width j h rows) headers.

(** A cell filled to its column's width, with the format's [padding=1] on
    both sides. *)
Definition padded (w : nat) (c : string) : string :=
  " " +:+ _padright w c +:+ " ".

(** [_build_simple_row] on the padded cells, with
    [DataRow("|", "|", "|")]. *)
Definition _build_row (widths : list nat) (cells : list string) : string :=
  "|" +:+ join "|" (zip_with padded widths cells) +:+ "|".

(** [_pipe_segment_with_colons("left", colwidth)] on the padded width. *)
Definition _pipe_segment_with_colons (w : nat) : string :=
  ":" +:+ repeat_char "-"%char (w + 2 - 1).

Definition _pipe_line_with_colons (widths : list nat) : string :=
  "|" +:+ join "|" (map _pipe_segment_with_colons widths) +:+ "|".

(** [_format_table]: the header row, the line below the header, one line
    per row; a table without columns is the empty string. *)
Definition table_lines (headers : list string) (rows : list (list string))
  : list string :=
  match headers with
  | [] => []
  | _ =>
      let widths := column_widths headers rows in
      _build_row widths headers
        :: _pipe_line_with_colons widths
        :: map (_build_row widths) rows
  end.

Definition tabulate (headers : list string) (rows : list (list string))
  : string :=
  join (str LF) (table_lines headers rows).

End Tabulate.

(** [df.to_markdown(index=False)]. *)
Definition to_markdown (df : Pandas.DataFrame) : string :=
  Tabulate.tabulate (Pandas.columns df)
    (map (map Tabulate.cell_text) (Pandas.values df)).

(** ** Python's csv module with the dialect pandas passes to it

    [DataFrame.to_csv] writes through [csv.writer(handle, lineterminator=
    os.linesep, delimiter=",", quoting=QUOTE_MINIMAL, doublequote=True,
    escapechar=None)] with the double quote as quote character; the line
    terminator is the POSIX one. *)

Module Csv.

Definition delimiter : ascii := comma.
Definition quotechar : ascii := dquote.
Definition lineterminator : string := str LF.

(** The characters for which [join_append_data] sets [*quoted]. *)
Definition special (c : ascii) : bool :=
  bool_decide (c = delimiter) || bool_decide (c = quotechar)
  || mem_char c lineterminator.

(** [join_append_data], quoting decision: a field is quoted when one of
    its characters is special. *)
Fixpoint quoted (field : string) : bool :=
  match field with
  | EmptyString => false
  | String c field' => special c || quoted field'
  end.

(** [join_append_data], copy phase: the quote character is doubled. *)
Fixpoint doubled (field : string) : string :=
  match field with
  | EmptyString => ""
  | String c field' =>
      if decide (c = quotechar) then String c (String c (doubled field'))
      else String c (doubled field')
  end.

(** [join_append]: one field of the record. *)
Definition join_append (field : string) : string :=
  if quoted field
  then String quotechar (doubled field +:+ str quotechar)
  else field.

(** [csv_writerow]: the fields joined by the delimiter; a record that
    has fields but came out empty (a single empty field) is written as a
    quoted empty field; then the line terminator. *)
Definition writerow (fields : list string) : string :=
  let rec := join (str delimiter) (map join_append fields) in
  (if bool_decide (rec = "") && negb (bool_decide (fields = []))
   then String quotechar (str quotechar) else rec)
  +:+ lineterminator.

Fixpoint writerows (rows : list (list string)) : string :=
  match rows with
  | [] => ""
  | row :: rows' => writerow row +:+ writerows rows'
  end.

(** The reader's state machine ([parse_process_char] in [_csv.c]), for the
    default dialect and non-strict mode, reading a text file opened with
    [newline=""]: physical lines end at LF, CR or CR LF, and the end of a
    line outside a quoted field ends the record. *)
Inductive state : Type :=
| START_RECORD
| START_FIELD
| IN_FIELD
| IN_QUOTED_FIELD
| QUOTE_IN_QUOTED_FIELD
| EAT_CRNL.

Record reader : Type := mkReader {
  st : state;
  field : string;
  fields : list string
}.

Definition add_char (r : reader) (c : ascii) (s : state) : reader :=
  {| st := s; field := field r +:+ str c; fields := fields r |}.

Definition save_field (r : reader) (s : state) : reader :=
  {| st := s; field := ""; fields := fields r ++ [field r] |}.

Definition is_newline (c : ascii) : bool :=
  bool_decide (c = LF) || bool_decide (c = CR).

(** The state after a line break: LF ends the physical line, CR may still
    be followed by the LF of a CR LF pair. *)
Definition after_break (c : ascii) : state :=
  if decide (c = CR) then EAT_CRNL else START_RECORD.

Definition fresh (s : state) : reader :=
  {| st := s; field := ""; fields := [] |}.

(** One character: the new reader state and the record completed by it,
    if any. *)
Definition parse_process_char (r : reader) (c : ascii)
  : reader * option (list string) :=
  let start_field :=
    if is_newline c then
      (fresh (after_break c), Some (fields r ++ [field r]))
    else if decide (c = quotechar) then
      ({| st := IN_QUOTED_FIELD; field := field r; fields := fields r |}, None)
    else if decide (c = delimiter) then (save_field r START_FIELD, None)
    else (add_char r c IN_FIELD, None) in
  match st r with
  | START_RECORD =>
      if is_newline c then (fresh (after_break c), Some [])
      else start_field
  | EAT_CRNL =>
      if decide (c = LF) then (fresh START_RECORD, None)
      else if is_newline c then (fresh (after_break c), Some [])
      else start_field
  | START_FIELD => start_field
  | IN_FIELD =>
      if is_newline c then
        (fresh (after_break c), Some (fields r ++ [field r]))
      else if decide (c = delimiter) then (save_field r START_FIELD, None)
      else (add_char r c IN_FIELD, None)
  | IN_QUOTED_FIELD =>
      if decide (c = quotechar)
      then ({| st := QUOTE_IN_QUOTED_FIELD;
               field := field r; fields := fields r |}, None)
      else (add_char r c IN_QUOTED_FIELD, None)
  | QUOTE_IN_QUOTED_FIELD =>
      if decide (c = quotechar) then (add_char r c IN_QUOTED_FIELD, None)
      else if decide (c = delimiter) then (save_field r START_FIELD, None)
      else if is_newline c then
        (fresh (after_break c), Some (fields r ++ [field r]))
      else (add_char r c IN_FIELD, None)
  end.

(** End of input: a record under way is completed. *)
Definition at_eof (r : reader) : list (list string) :=
  match st r with
  | START_RECORD | EAT_CRNL => []
  | _ => [fields r ++ [field r]]
  end.

(** [list(csv.reader(f))] from reader state [r]. *)
Fixpoint read_from (r : reader) (text : string) : list (list string) :=
  match text with
  | EmptyString => at_eof r
  | String c text' =>
      let '(r', out) := parse_process_char r c in
      match out with
      | Some rec => rec :: read_from r' text'
      | None => read_from r' text'
      end
  end.

Definition reader_rows (text : string) : list (list string) :=
  read_from (fresh START_RECORD) text.

(** A field that holds a carriage return and that the writer leaves
    unquoted: CR is no character of the line terminator, so alone it does
    not make a field quoted. *)
Definition bare_cr (field : string) : bool :=
  mem_char CR field && negb (quoted field).

End Csv.

(** [df.to_csv(path, index=False)], the text written: the header row, then
    one row per record.  A field is [str] of the element, a float with its
    decimal point; [None] and [NaN] are written as [na_rep=""]. *)
Definition csv_text (c : Pandas.cell) : string :=
  match c with
  | Pandas.Val (VStr s) => s
  | Pandas.Val (VInt z) => str_int z
  | Pandas.Val VNone => ""
  | Pandas.Float z => str_int z +:+ ".0"
  | Pandas.NaN => ""
  end.

Definition to_csv (df : Pandas.DataFrame) : string :=
  Csv.writerows (Pandas.columns df :: map (map csv_text) (Pandas.values df)).

(** ** Reading a markdown table back

    The text is read line by line.  A row of a GitHub-flavoured table is
    cut at every pipe that is not escaped by a backslash; the pipe that
    opens the row and the one that closes it delimit no cell. *)

Module Gfm.








End Gfm.

(** ** Files *)

(** The files of the working directory: path to content. *)
Abbreviation files := (gmap string string).

Inductive mode : Type := mode_w | mode_a.

(** The file operations a tool performs, in program order. *)
Inductive io : Type :=
| io_open (file_name : string) (m : mode)
| io_write (file_name : string) (text : string)
| io_close (file_name : string).

(** [open(p, 'w')] creates or truncates; [open(p, 'a')] creates the file
    when absent and leaves an existing one as it is; a write lands at the
    end of the file. *)
Definition io_step (fs : files) (op : io) : files :=
  match op with
  | io_open p mode_w => <[p := ""]> fs
  | io_open p mode_a =>
      match fs !! p with
      | Some _ => fs
      | None => <[p := ""]> fs
      end
  | io_write p text => <[p := default "" (fs !! p) +:+ text]> fs
  | io_close _ => fs
  end.

Definition perform (ops : list io) (fs : files) : files :=
  fold_left io_step ops fs.

(** The destination as it stands when the run is cut short after its
    first [n] file operations. *)
Definition interrupted_after (n : nat) (ops : list io) (fs : files) : files :=
  perform (take n ops) fs.

(** ** Module globals (lines 74-83) *)

Record Globals : Type := mkGlobals {
  product_type : string;
  review_attributes : string;
  source_hints : string;
  avoid_types : string;
  markdown_output : string;
  csv_output : string
}.

Definition module_globals : Globals := {|
  product_type := "NETGEAR RAXE300 Reviews";
  review_attributes :=
    "price range, ratings, title, urls, name, ports available, and features description, mobile dropping connection issues";
  source_hints := "like tech review sites, amazon reviews,";
  avoid_types := "Do Not look at other devices.";
  markdown_output := "router_review.md";
  csv_output := "router_review.csv"
|}.

(** ** The writer tools *)

(** The class object left by the [class MarkdownTableTool] statement: the
    defaults of [_run] are evaluated when the [def] is executed and stored
    with the function. *)
Record MarkdownTableTool : Type := mkMarkdownTableTool {
  md_run_default_file_name : string;
  md_run_default_append : bool
}.

Definition MarkdownTableTool_class (g : Globals) : MarkdownTableTool :=
  {| md_run_default_file_name := markdown_output g;
     md_run_default_append := false |}.

Record CSVWriterTool : Type := mkCSVWriterTool {
  csv_run_default_file_name : string
}.

Definition CSVWriterTool_class (g : Globals) : CSVWriterTool :=
  {| csv_run_default_file_name := csv_output g |}.

(** [MarkdownTableTool._run]: the file operations of the [with] block. *)
Definition MarkdownTableTool_run_io (data : list record) (file_name : string)
    (append : bool) : list io :=
  let df := Pandas.of_records data in
  let markdown_table := to_markdown df in
  let m := if append then mode_a else mode_w in
  [io_open file_name m]
    ++ (if append then [io_write file_name (String LF (str LF))] else [])
    ++ [io_write file_name markdown_table; io_close file_name].

(** [MarkdownTableTool._run(data, file_name, append)]; an argument left out
    is [None] and takes the stored default. *)
Definition MarkdownTableTool_run (self : MarkdownTableTool)
    (data : list record) (file_name : option string) (append : option bool)
    (fs : files) : files * string :=
  let file_name := default (md_run_default_file_name self) file_name in
  let append := default (md_run_default_append self) append in
  (perform (MarkdownTableTool_run_io data file_name append) fs,
   "Markdown table generated and saved as " +:+ file_name).

(** [CSVWriterTool._run]: [df.to_csv(file_name, index=False)] opens the
    path for writing, writes the text and closes it. *)
Definition CSVWriterTool_run_io (data : list record) (file_name : string)
  : list io :=
  let df := Pandas.of_records data in
  [io_open file_name mode_w; io_write file_name (to_csv df);
   io_close file_name].

Definition CSVWriterTool_run (self : CSVWriterTool) (data : list record)
    (file_name : option string) (fs : files) : files * string :=
  let file_name := default (csv_run_default_file_name self) file_name in
  (perform (CSVWriterTool_run_io data file_name) fs,
   "CSV file generated and saved as " +:+ file_name).

(** The module after its top-level statements up to the class definitions:
    the globals, and the two classes built from the globals of that
    moment. *)
Record Module_state : Type := mkModule {
  globals : Globals;
  cls_MarkdownTableTool : MarkdownTableTool;
  cls_CSVWriterTool : CSVWriterTool
}.

Definition module_loaded : Module_state := {|
  globals := module_globals;
  cls_MarkdownTableTool := MarkdownTableTool_class module_globals;
  cls_CSVWriterTool := CSVWriterTool_class module_globals
|}.

(** A later assignment [markdown_output = md; csv_output = csv] rebinds the
    globals and nothing else. *)
Definition reassign_outputs (md csv : string) (m : Module_state)
  : Module_state :=
  {| globals := {| product_type := product_type (globals m);
                   review_attributes := review_attributes (globals m);
                   source_hints := source_hints (globals m);
                   avoid_types := avoid_types (globals m);
                   markdown_output := md;
                   csv_output := csv |};
     cls_MarkdownTableTool := cls_MarkdownTableTool m;
     cls_CSVWriterTool := cls_CSVWriterTool m |}.

(** ** Agents, tasks and the crew *)

Inductive Tool : Type :=
| SerperDevTool
| EXASearchTool
| ScrapeWebsiteTool
| MarkdownTableTool_inst (cls : MarkdownTableTool)
| CSVWriterTool_inst (cls : CSVWriterTool).

Record Agent : Type := mkAgent {
  role : string;
  goal : string;
  backstory : string;
  agent_tools : list Tool;
  agent_verbose : bool
}.

(** A task object.  [task_id] stands for the object's identity (the
    framework gives every task a fresh id); [context] lists the tasks
    passed as [context=[...]], by identity. *)
Record Task : Type := mkTask {
  task_id : nat;
  description : string;
  expected_output : string;
  agent : Agent;
  task_tools : list Tool;
  context : list nat;
  output_file : option string
}.

Inductive Process : Type := sequential | hierarchical.

Record Crew : Type := mkCrew {
  agents : list Agent;
  tasks : list Task;
  process : Process;
  verbose : nat
}.

(** [create_agents]. *)
Definition create_agents (data_collector_goal data_analyzer_goal : string)
    (data_collector_tools data_analyzer_tools : list Tool) : Agent * Agent :=
  let data_collector := {|
    role := "Data Collector";
    goal := data_collector_goal;
    backstory :=
      "An efficient agent focused on gathering relevant data from various sources . Use all your tools";
    agent_tools := data_collector_tools;
    agent_verbose := true |} in
  let data_analyzer := {|
    role := "Data Analyzer";
    goal := data_analyzer_goal;
    backstory :=
      "A detailed-oriented agent responsible for analyzing data and creating structured outputs.";
    agent_tools := data_analyzer_tools;
    agent_verbose := true |} in
  (data_collector, data_analyzer).

(** [create_tasks]; the names [source_hints], [avoid_types],
    [markdown_output], [csv_output] and the two classes are looked up in the
    module [m] at the time of the call.  The tasks are numbered in the
    order in which they are constructed. *)
Definition create_tasks (m : Module_state) (data_collector data_analyzer : Agent)
    (product_type review_attributes : string) : Task * Task * Task :=
  let g := globals m in
  let collect_reviews_task := {|
    task_id := 0;
    description :=
      "Collect product reviews for the top " +:+ product_type
        +:+ ", including " +:+ review_attributes
        +:+ ". Use these type of " +:+ source_hints g;
    expected_output := "A JSON object containing the collected reviews.";
    agent := data_collector;
    task_tools := [ScrapeWebsiteTool];
    context := [];
    output_file := None |} in
  let analyze_reviews_markdown_task := {|
    task_id := 1;
    description :=
      "Analyze collected reviews and generate a markdown table for "
        +:+ product_type +:+ ", including " +:+ review_attributes
        +:+ ". Be sure to avoide " +:+ avoid_types g;
    expected_output := "A markdown table saved to reviews.md.";
    agent := data_analyzer;
    task_tools := [MarkdownTableTool_inst (cls_MarkdownTableTool m)];
    context := [task_id collect_reviews_task];
    output_file := Some (markdown_output g) |} in
  let analyze_reviews_csv_task := {|
    task_id := 2;
    description :=
      "Analyze collected reviews of " +:+ product_type
        +:+ ", including " +:+ review_attributes
        +:+ ". Be sure to avoide " +:+ avoid_types g
        +:+ " and generate a CSV file.";
    expected_output := "A CSV file saved to reviews.csv.";
    agent := data_analyzer;
    task_tools := [CSVWriterTool_inst (cls_CSVWriterTool m)];
    context := [task_id collect_reviews_task];
    output_file := Some (csv_output g) |} in
  (collect_reviews_task, analyze_reviews_markdown_task,
   analyze_reviews_csv_task).

(** The crew [create_and_kickoff_crew] builds before it calls [kickoff]. *)
Definition build_crew (m : Module_state) (product_type review_attributes : string)
  : Crew :=
  let g := globals m in
  let data_collector_goal :=
    "Collect product reviews for the top " +:+ product_type
      +:+ ", including " +:+ review_attributes
      +:+ ". Be sure to avoide " +:+ avoid_types g in
  let data_analyzer_goal :=
    "Analyze collected reviews and generate markdown and CSV outputs for "
      +:+ product_type +:+ ", including " +:+ review_attributes
      +:+ ". Be sure to avoide " +:+ avoid_types g in
  let data_collector_tools :=
    [SerperDevTool; EXASearchTool; ScrapeWebsiteTool] in
  let data_analyzer_tools :=
    [MarkdownTableTool_inst (cls_MarkdownTableTool m);
     CSVWriterTool_inst (cls_CSVWriterTool m)] in
  let '(data_collector, data_analyzer) :=
    create_agents data_collector_goal data_analyzer_goal
      data_collector_tools data_analyzer_tools in
  let '(collect_reviews_task, analyze_reviews_markdown_task,
        analyze_reviews_csv_task) :=
    create_tasks m data_collector data_analyzer product_type
      review_attributes in
  {| agents := [data_collector; data_analyzer];
     tasks := [collect_reviews_task; analyze_reviews_markdown_task;
               analyze_reviews_csv_task];
     process := sequential;
     verbose := 2 |}.

(** The ordering invariant of a pipeline, as a check over the task list:
    every id in a task's context is the id of a task placed before it. *)
Fixpoint context_precedes (earlier : list nat) (ts : list Task) : bool :=
  match ts with
  | [] => true
  | t :: ts' =>
      forallb (fun c => bool_decide (c ∈ earlier)) (context t)
      && context_precedes (earlier ++ [task_id t]) ts'
  end.

(** ** Running the crew *)

(** A Python exception, as raised inside a library. *)
Inductive exn : Type := Exception (message : string).

(** A call of a library constructor, with the object it is to build. *)
Inductive Construction : Type :=
| new_Tool (tool : Tool)
| new_Agent (agent : Agent)
| new_Task (task : Task)
| new_Crew (crew : Crew).

(** The constructor calls [create_and_kickoff_crew] makes on its way to the
    crew, in program order: the tools of the two tool lists (lines 184 and
    185), the two agents ([create_agents]), each task after the tool of its
    [tools=[...]] argument ([create_tasks]), and the crew (line 191). *)
Definition constructor_calls (crew : Crew) : list Construction :=
  map new_Tool (concat (map agent_tools (agents crew)))
  ++ map new_Agent (agents crew)
  ++ concat (map (fun t => map new_Tool (task_tools t) ++ [new_Task t])
               (tasks crew))
  ++ [new_Crew crew].

(** What a call leaves behind: the tasks handed to an agent, in order, the
    outputs stored on the task objects, and the value returned or the
    exception raised. *)
Record Run : Type := mkRun {
  executed : list nat;
  outputs : gmap nat string;
  result : exn + string
}.

Section Kickoff.

(** The libraries the script runs against, each given the process
    environment.  [construct] is a constructor call: it returns, or it
    raises.  [execute_task] is the agent framework at work on one task:
    given the task and the context text, it returns the task's output or
    raises.  [run_hierarchical] is the framework's run of a crew whose
    process is hierarchical, where a manager agent hands out the tasks. *)
Variable construct : gmap string string -> Construction -> option exn.
Variable execute_task : gmap string string -> Task -> string -> exn + string.
Variable run_hierarchical : gmap string string -> Crew -> Run.
Variable environ : gmap string string.

(** [Task.execute]: the context text is the outputs of the context tasks,
    joined by newlines, or the previous task's output when the task
    declares no context. *)
Definition task_context (outs : gmap nat string) (task_output : string)
    (t : Task) : string :=
  match context t with
  | [] => task_output
  | cs => join (str LF) (omap (fun c => outs !! c) cs)
  end.

(** [Crew._run_sequential_process]: the tasks in list order; an exception
    raised by a task leaves the loop at once; the value returned is the
    last task's output. *)
Fixpoint run_sequential (ts : list Task) (done : list nat)
    (outs : gmap nat string) (task_output : string) : Run :=
  match ts with
  | [] => {| executed := done; outputs := outs; result := inr task_output |}
  | t :: ts' =>
      match execute_task environ t (task_context outs task_output t) with
      | inl e =>
          {| executed := done ++ [task_id t]; outputs := outs;
             result := inl e |}
      | inr output =>
          run_sequential ts' (done ++ [task_id t])
            (<[task_id t := output]> outs) output
      end
  end.

(** [Crew.kickoff]: the run that the crew's process calls for. *)
Definition kickoff (crew : Crew) : Run :=
  match process crew with
  | sequential => run_sequential (tasks crew) [] ∅ ""
  | hierarchical => run_hierarchical environ crew
  end.

(** The constructor calls in order: the exception of the first call that
    raises, if one does. *)
Fixpoint first_raise (calls : list Construction) : option exn :=
  match calls with
  | [] => None
  | c :: calls' =>
      match construct environ c with
      | Some e => Some e
      | None => first_raise calls'
      end
  end.

(** [create_and_kickoff_crew]: the tools, the agents, the tasks and the crew
    are constructed and the crew is kicked off; what [kickoff] returns is
    returned, and what a constructor or [kickoff] raises passes through
    (the function has no [try]). *)
Definition create_and_kickoff_crew (m : Module_state)
    (product_type review_attributes : string) : Run :=
  let reviews_crew := build_crew m product_type review_attributes in
  match first_raise (constructor_calls reviews_crew) with
  | Some e => {| executed := []; outputs := ∅; result := inl e |}
  | None =>
      let result := kickoff reviews_crew in
      result
  end.

End Kickoff.

(** [load_dotenv()]: the entries of the .env file enter the process
    environment, a variable that is already set keeps its value. *)
Definition load_dotenv (dotenv environ : gmap string string)
  : gmap string string :=
  environ ∪ dotenv.

(** The script from line 69 to line 206: the text printed, if the run gets
    that far, and the run itself. *)
Definition script
    (construct : gmap string string -> Construction -> option exn)
    (execute_task : gmap string string -> Task -> string -> exn + string)
    (run_hierarchical : gmap string string -> Crew -> Run)
    (dotenv environ : gmap string string) : Run * option string :=
  let environ := load_dotenv dotenv environ in
  let m := module_loaded in
  let run :=
    create_and_kickoff_crew construct execute_task run_hierarchical environ m
      (product_type (globals m)) (review_attributes (globals m)) in
  (run, match result run with inr text => Some text | inl _ => None end).

(** ** Libraries to run the crew against *)

(** Constructors that build their object whatever the environment holds. *)
Definition constructors_return
  : gmap string string -> Construction -> option exn :=
  fun _ _ => None.

(** Constructors of which the agent's needs the key of its language model
    in the environment, and raises without it. *)
Definition agent_needs_openai_key
  : gmap string string -> Construction -> option exn :=
  fun environ c =>
    match c, environ !! "OPENAI_API_KEY" with
    | new_Agent _, None => Some (Exception "ValidationError: OPENAI_API_KEY")
    | _, _ => None
    end.

(** A framework without a manager for a hierarchical crew. *)
Definition no_manager : gmap string string -> Crew -> Run :=
  fun _ _ =>
    {| executed := []; outputs := ∅;
       result := inl (Exception "no manager") |}.

(** A framework whose first task returns [out] and whose later tasks all
    raise the same exception. *)
Definition fails_after_first (out : string)
  : gmap string string -> Task -> string -> exn + string :=
  fun _ t _ =>
    if decide (task_id t = 0) then inr out
    else inl (Exception "stage failed").

(** A framework whose search tool reads its key from the environment when
    it is first called, and raises a [KeyError] from there when the key is
    not set. *)
Definition needs_serper_key
  : gmap string string -> Task -> string -> exn + string :=
  fun environ t _ =>
    match environ !! "SERPER_API_KEY" with
    | Some _ => inr ("done: " +:+ description t)
    | None => inl (Exception "KeyError: SERPER_API_KEY")
    end.

(** * Verification *)

(** ** Lists and text *)

Lemma map_fmap {A B} (f : A -> B) (l : list A) : map f l = f <$> l.
Proof. induction l as [|x l IH]; simpl; [done | by rewrite IH]. Qed.

Lemma concat_mjoin {A} (ls : list (list A)) : concat ls = mjoin ls.
Proof. induction ls as [|l ls IH]; simpl; [done | by rewrite IH]. Qed.

Lemma existsb_elem {A} (p : A -> bool) (l : list A) :
  existsb p l = true ↔ ∃ x, x ∈ l ∧ p x = true.
Proof.
  rewrite existsb_exists. split; intros (x & Hx & Hp); exists x;
    by rewrite ?list_elem_of_In in *.
Qed.


(** ** The frame: columns in first-seen order *)

Lemma unique_append_first_seen (buf uniques : list string) :
  Pandas.unique_append uniques buf
  = uniques ++ filter (fun k => k ∉ uniques) (first_seen buf).
Proof.
  revert uniques. induction buf as [|val buf IH]; intros uniques; simpl.
  - by rewrite filter_nil, app_nil_r.
  - rewrite IH. destruct (decide (val ∈ uniques)) as [Hin|Hout].
    + rewrite (filter_cons_False _ val) by (intros Hno; by apply Hno).
      f_equal. rewrite list_filter_filter. apply list_filter_iff.
      intros k. split; [intros Hk; split; [done | congruence] | tauto].
    + rewrite (filter_cons_True _ val) by done.
      rewrite <- app_assoc. simpl. do 2 f_equal.
      rewrite list_filter_filter. apply list_filter_iff.
      intros k. rewrite elem_of_app, list_elem_of_singleton. tauto.
Qed.

Lemma unique_append_app (buf rest uniques : list string) :
  Pandas.unique_append uniques (buf ++ rest)
  = Pandas.unique_append (Pandas.unique_append uniques buf) rest.
Proof.
  revert uniques. induction buf as [|val buf IH]; intros uniques; simpl.
  - done.
  - apply IH.
Qed.

Lemma fold_unique_append (gen : list (list string)) (uniques : list string) :
  fold_left Pandas.unique_append gen uniques
  = Pandas.unique_append uniques (concat gen).
Proof.
  revert uniques. induction gen as [|buf gen IH]; intros uniques; simpl.
  - done.
  - by rewrite IH, unique_append_app.
Qed.

Lemma filter_not_in_nil (l : list string) :
  filter (fun k => k ∉ ([] : list string)) l = l.
Proof.
  induction l as [|k l IH]; [done|].
  rewrite filter_cons_True by apply not_elem_of_nil. by rewrite IH.
Qed.

Lemma columns_first_seen (R : list record) :
  Pandas.columns (Pandas.of_records R) = ordered_union R.
Proof.
  unfold Pandas.of_records, Pandas.fast_unique_multiple_list_gen,
    ordered_union. cbn [Pandas.columns].
  rewrite fold_unique_append, unique_append_first_seen. simpl.
  apply filter_not_in_nil.
Qed.

Lemma first_seen_elem (ks : list string) (k : string) :
  k ∈ first_seen ks ↔ k ∈ ks.
Proof.
  induction ks as [|k0 ks IH]; simpl; [done|].
  rewrite !elem_of_cons, list_elem_of_filter, IH.
  destruct (decide (k = k0)); tauto.
Qed.


(** Keys seen earlier stand before keys first seen later. *)
Lemma first_seen_app (ks1 ks2 : list string) :
  first_seen (ks1 ++ ks2)
  = first_seen ks1 ++ filter (fun k => k ∉ ks1) (first_seen ks2).
Proof.
  pose proof (unique_append_app ks1 ks2 []) as H.
  rewrite !unique_append_first_seen in H.
  rewrite !filter_not_in_nil in H. simpl in H. rewrite H.
  f_equal. apply list_filter_iff. intros k. by rewrite first_seen_elem.
Qed.

Lemma elem_of_ordered_union (R : list record) (k : string) :
  k ∈ ordered_union R ↔ ∃ r, r ∈ R ∧ k ∈ keys r.
Proof.
  unfold ordered_union. rewrite first_seen_elem, concat_mjoin, list_elem_of_join.
  rewrite map_fmap. split.
  - intros (ks & Hk & Hks). apply list_elem_of_fmap in Hks as (r & -> & Hr).
    eauto.
  - intros (r & Hr & Hk). exists (keys r). split; [done|].
    by apply list_elem_of_fmap_2.
Qed.

(** ** The frame: rows and converted columns *)

Lemma dict_row_length (cols : list string) (r : record) :
  length (Pandas.dict_row cols r) = length cols.
Proof. unfold Pandas.dict_row. by rewrite length_map. Qed.

Lemma column_dtypes_length (n : nat) (content : list (list Pandas.cell)) :
  length (Pandas.column_dtypes n content) = n.
Proof. unfold Pandas.column_dtypes. by rewrite length_map, length_seq. Qed.

(** Column [j] of the object array holds what each record brings to the
    [j]-th key. *)
Lemma column_of_content (R : list record) (cols : list string) (j : nat)
    (col : string) :
  cols !! j = Some col ->
  Pandas.column j (Pandas.dicts_to_array R cols)
  = map (fun r => Pandas.entry r col) R.
Proof.
  intros Hj. unfold Pandas.column, Pandas.dicts_to_array.
  rewrite map_map. apply map_ext. intros r.
  unfold Pandas.dict_row. rewrite map_fmap.
  apply nth_lookup_Some with (d := Pandas.NaN).
  by rewrite list_lookup_fmap, Hj.
Qed.

(** The dtype pandas gives the column of key [col]. *)
Lemma column_dtypes_lookup (R : list record) (cols : list string) (j : nat)
    (col : string) :
  cols !! j = Some col ->
  Pandas.column_dtypes (length cols) (Pandas.dicts_to_array R cols) !! j
  = Some (Pandas.maybe_convert_objects (map (fun r => Pandas.entry r col) R)).
Proof.
  intros Hj. unfold Pandas.column_dtypes.
  rewrite map_fmap, list_lookup_fmap.
  rewrite lookup_seq_lt by (by eapply lookup_lt_Some).
  simpl. by rewrite (column_of_content R cols j col).
Qed.

Lemma values_length (R : list record) :
  length (Pandas.values (Pandas.of_records R)) = length R.
Proof.
  unfold Pandas.of_records, Pandas.convert_object_array, Pandas.dicts_to_array.
  cbn [Pandas.values]. by rewrite !length_map.
Qed.

(** Row [i] of the frame is record [i], key by key: what the record brings
    to the column, in the column's dtype. *)
Lemma values_lookup (R : list record) (i : nat) (r : record) :
  R !! i = Some r ->
  Pandas.values (Pandas.of_records R) !! i
  = Some (map (fun col =>
                 Pandas.astype
                   (Pandas.maybe_convert_objects
                      (map (fun r' => Pandas.entry r' col) R))
                   (Pandas.entry r col))
            (Pandas.columns (Pandas.of_records R))).
Proof.
  intros Hi. unfold Pandas.of_records, Pandas.convert_object_array.
  cbn [Pandas.values Pandas.columns].
  set (cols := Pandas.fast_unique_multiple_list_gen (map keys R)).
  rewrite map_fmap, list_lookup_fmap.
  unfold Pandas.dicts_to_array at 2. rewrite map_fmap, list_lookup_fmap, Hi.
  simpl. f_equal. apply list_eq. intros j.
  rewrite lookup_zip_with, map_fmap, list_lookup_fmap.
  unfold Pandas.dict_row. rewrite map_fmap, list_lookup_fmap.
  destruct (cols !! j) as [col|] eqn:Hj; simpl.
  - by rewrite (column_dtypes_lookup R cols j col Hj).
  - by destruct (Pandas.column_dtypes _ _ !! j).
Qed.



(** The scenario of the specification: two records with different keys. *)
Example frame_of_two_records :
  Pandas.of_records
    [[("name", VStr "A"); ("price", VStr "$10")];
     [("name", VStr "B"); ("ports", VStr "4")]]
  = {| Pandas.columns := ["name"; "price"; "ports"];
       Pandas.values :=
         [[Pandas.Val "A"; Pandas.Val "$10"; Pandas.NaN];
          [Pandas.Val "B"; Pandas.NaN; Pandas.Val "4"]] |}.
Proof. reflexivity. Qed.

(** ** Text: concatenation and characters *)

Lemma append_cons (x : ascii) (a b : string) :
  String x a +:+ b = String x (a +:+ b).
Proof. reflexivity. Qed.

Lemma append_nil_l (a : string) : "" +:+ a = a.
Proof. reflexivity. Qed.

Lemma append_assoc (a b c : string) : (a +:+ b) +:+ c = a +:+ (b +:+ c).
Proof.
  induction a as [|x a IH]; [done|]. rewrite !append_cons. by f_equal.
Qed.

Lemma append_nil_r (a : string) : a +:+ "" = a.
Proof.
  induction a as [|x a IH]; [done|]. rewrite append_cons. by f_equal.
Qed.


Lemma all_chars_app (p : ascii -> bool) (a b : string) :
  all_chars p (a +:+ b) = all_chars p a && all_chars p b.
Proof.
  induction a as [|x a IH]; [done|].
  rewrite append_cons. simpl. by rewrite IH, andb_assoc.
Qed.

Lemma all_chars_impl (p q : ascii -> bool) (s : string) :
  (∀ c, p c = true -> q c = true) ->
  all_chars p s = true -> all_chars q s = true.
Proof.
  intros Hpq. induction s as [|c s IH]; [done|]. simpl.
  rewrite !andb_true_iff. intros [Hc Hs]. split; [by apply Hpq | by apply IH].
Qed.

Lemma all_chars_mem (p : ascii -> bool) (c : ascii) (s : string) :
  all_chars p s = true -> p c = false -> mem_char c s = false.
Proof.
  intros Hs Hc. induction s as [|c' s IH]; [done|]. simpl in *.
  apply andb_true_iff in Hs as [Hc' Hs].
  destruct (decide (c' = c)) as [->|]; [congruence | by apply IH].
Qed.






(** [str] of an int is made of digits and, at most, a minus sign. *)
Lemma all_chars_pretty_N_go (p : ascii -> bool) (x : N) (s : string) :
  (∀ n, p (pretty_N_char n) = true) ->
  all_chars p s = true -> all_chars p (pretty_N_go x s) = true.
Proof.
  intros Hp. revert s. induction (N.lt_wf_0 x) as [x _ IH]. intros s Hs.
  destruct (decide (x = 0)%N) as [->|Hx]; [by rewrite pretty_N_go_0|].
  rewrite pretty_N_go_step by lia. apply IH.
  - apply N.div_lt; lia.
  - simpl. by rewrite Hp, Hs.
Qed.

Lemma all_chars_str_int (p : ascii -> bool) (z : Z) :
  (∀ n, p (pretty_N_char n) = true) -> p "-"%char = true ->
  all_chars p (str_int z) = true.
Proof.
  intros Hp Hminus.
  assert (∀ x : positive, all_chars p (pretty x) = true) as Hpos.
  { intros x. unfold pretty, pretty_positive, pretty, pretty_N.
    destruct (decide (N.pos x = 0)%N); [done|].
    by apply all_chars_pretty_N_go. }
  unfold str_int, pretty, pretty_Z. destruct z as [|x|x]; simpl.
  - pose proof (Hp 0%N) as H0. simpl in H0. by rewrite H0.
  - apply Hpos.
  - rewrite all_chars_app. simpl. by rewrite Hminus, Hpos.
Qed.

Lemma pretty_N_char_cases (p : ascii -> bool) :
  forallb p ["0"; "1"; "2"; "3"; "4"; "5"; "6"; "7"; "8"; "9"]%char = true ->
  ∀ n, p (pretty_N_char n) = true.
Proof.
  intros H n. simpl in H. rewrite !andb_true_iff in H.
  unfold pretty_N_char. repeat case_match; tauto.
Qed.

(** ** Lines *)




(** ** Markdown: the pipes of a row *)



















Lemma join_cons_cons (sep p q : string) (ps : list string) :
  join sep (p :: q :: ps) = p +:+ sep +:+ join sep (q :: ps).
Proof. reflexivity. Qed.













(** ** Markdown: the lines of the table *)





(** ** The frame, record by record *)

Lemma values_rows (R : list record) :
  Pandas.values (Pandas.of_records R)
  = map (fun r =>
           map (fun col =>
                  Pandas.astype
                    (Pandas.maybe_convert_objects
                       (map (fun r' => Pandas.entry r' col) R))
                    (Pandas.entry r col))
             (Pandas.columns (Pandas.of_records R))) R.
Proof.
  apply list_eq. intros i. rewrite (map_fmap _ R), list_lookup_fmap.
  destruct (R !! i) as [r|] eqn:Hi.
  - by rewrite (values_lookup R i r Hi).
  - apply lookup_ge_None_2. rewrite values_length.
    by apply lookup_ge_None_1.
Qed.

Lemma existsb_map {A B} (p : B -> bool) (f : A -> B) (l : list A) :
  existsb p (map f l) = existsb (fun x => p (f x)) l.
Proof. induction l as [|x l IH]; simpl; [done | by rewrite IH]. Qed.

(** An integer stays an integer, or becomes a float: the latter in the
    columns without a text that have [None] or a gap. *)
Lemma astype_int (R : list record) (r : record) (col : string) (z : Z) :
  r ∈ R -> dict_get r col = Some (VInt z) ->
  Pandas.astype
    (Pandas.maybe_convert_objects (map (fun r' => Pandas.entry r' col) R))
    (Pandas.entry r col)
  = if ints_as_floats R col then Pandas.Float z else Pandas.Val (VInt z).
Proof.
  intros Hr Hget. unfold Pandas.maybe_convert_objects, ints_as_floats.
  rewrite !existsb_map.
  assert (existsb (fun r' => Pandas.is_int (Pandas.entry r' col)) R = true)
    as ->.
  { apply existsb_elem. exists r. split; [done|].
    unfold Pandas.entry. by rewrite Hget. }
  assert (existsb (fun r' => Pandas.is_str (Pandas.entry r' col)) R
          = negb (forallb (fun r' => match dict_get r' col with
                                     | Some (VStr _) => false
                                     | _ => true
                                     end) R)) as ->.
  { clear. induction R as [|r' R IH]; [done|]. simpl.
    rewrite IH, negb_andb. f_equal. unfold Pandas.entry.
    by destruct (dict_get r' col) as [[]|]. }
  assert (existsb (fun r' => Pandas.is_none (Pandas.entry r' col)) R
          || existsb (fun r' => Pandas.is_nan (Pandas.entry r' col)) R
          = existsb (fun r' => match dict_get r' col with
                               | Some VNone | None => true
                               | _ => false
                               end) R) as ->.
  { clear. induction R as [|r' R IH]; [done|]. simpl.
    rewrite <- IH. unfold Pandas.entry.
    destruct (dict_get r' col) as [[]|]; simpl;
      rewrite ?orb_true_r; done. }
  unfold Pandas.entry. rewrite Hget.
  destruct (forallb _ R); simpl; [|done].
  by destruct (existsb _ R).
Qed.

(** The field written for record [r] under [col]. *)
Lemma csv_text_field (R : list record) (r : record) (col : string) :
  r ∈ R ->
  csv_text
    (Pandas.astype
       (Pandas.maybe_convert_objects (map (fun r' => Pandas.entry r' col) R))
       (Pandas.entry r col))
  = field_text R r col.
Proof.
  intros Hr. unfold field_text.
  destruct (dict_get r col) as [[s|z|]|] eqn:Hget.
  - unfold Pandas.entry. rewrite Hget.
    by destruct (Pandas.maybe_convert_objects _).
  - rewrite (astype_int R r col z Hr Hget).
    by destruct (ints_as_floats R col).
  - unfold Pandas.entry. rewrite Hget.
    by destruct (Pandas.maybe_convert_objects _).
  - unfold Pandas.entry. rewrite Hget.
    by destruct (Pandas.maybe_convert_objects _).
Qed.

Lemma map_ext_elem {A B} (f g : A -> B) (l : list A) :
  (∀ x, x ∈ l -> f x = g x) -> map f l = map g l.
Proof.
  intros H. apply map_ext_in. intros x Hx. apply H. by apply list_elem_of_In.
Qed.

(** The CSV text is the header row and one written row per record. *)
Lemma to_csv_rows (R : list record) :
  to_csv (Pandas.of_records R)
  = Csv.writerows
      (ordered_union R
         :: map (fun r => map (field_text R r) (ordered_union R)) R).
Proof.
  unfold to_csv. rewrite values_rows, columns_first_seen. f_equal. f_equal.
  rewrite map_map. apply map_ext_elem. intros r Hr.
  rewrite map_map. apply map_ext. intros col. by apply csv_text_field.
Qed.



(** ** What a run leaves in the destination *)

Lemma markdown_overwrite_content (self : MarkdownTableTool) (R : list record)
    (file_name : string) (fs : files) :
  (MarkdownTableTool_run self R (Some file_name) (Some false) fs).1
    !! file_name
  = Some (to_markdown (Pandas.of_records R)).
Proof.
  unfold MarkdownTableTool_run, MarkdownTableTool_run_io, perform. simpl.
  by rewrite !lookup_insert_eq.
Qed.

Lemma csv_overwrite_content (self : CSVWriterTool) (R : list record)
    (file_name : string) (fs : files) :
  (CSVWriterTool_run self R (Some file_name) fs).1 !! file_name
  = Some (to_csv (Pandas.of_records R)).
Proof.
  unfold CSVWriterTool_run, CSVWriterTool_run_io, perform. simpl.
  by rewrite !lookup_insert_eq.
Qed.








(** ** CSV: reading back what the writer wrote *)

Lemma special_false (c : ascii) :
  Csv.special c = false ->
  c ≠ Csv.delimiter ∧ c ≠ Csv.quotechar ∧ c ≠ LF.
Proof.
  unfold Csv.special, Csv.lineterminator, str. simpl.
  rewrite !orb_false_iff. intros [[H1 H2] H3].
  apply bool_decide_eq_false in H1, H2.
  destruct (decide (LF = c)) as [->|Hlf]; [done|].
  repeat split; [done | done | by intros ->].
Qed.

Lemma is_newline_false (c : ascii) :
  c ≠ LF -> c ≠ CR -> Csv.is_newline c = false.
Proof.
  intros H1 H2. unfold Csv.is_newline.
  by rewrite !bool_decide_eq_false_2.
Qed.

Lemma step_start_plain (s : Csv.state) (g : string) (fs : list string)
    (c : ascii) :
  s = Csv.START_FIELD ∨ s = Csv.START_RECORD ->
  Csv.is_newline c = false -> c ≠ Csv.quotechar -> c ≠ Csv.delimiter ->
  Csv.parse_process_char {| Csv.st := s; Csv.field := g; Csv.fields := fs |} c
  = ({| Csv.st := Csv.IN_FIELD; Csv.field := g +:+ str c; Csv.fields := fs |},
     None).
Proof.
  intros Hs Hn Hq Hd. unfold Csv.parse_process_char. simpl.
  rewrite Hn. rewrite !decide_False by done.
  by destruct Hs as [-> | ->].
Qed.

Lemma step_in_field_plain (g : string) (fs : list string) (c : ascii) :
  Csv.is_newline c = false -> c ≠ Csv.delimiter ->
  Csv.parse_process_char
    {| Csv.st := Csv.IN_FIELD; Csv.field := g; Csv.fields := fs |} c
  = ({| Csv.st := Csv.IN_FIELD; Csv.field := g +:+ str c; Csv.fields := fs |},
     None).
Proof.
  intros Hn Hd. unfold Csv.parse_process_char. simpl.
  rewrite Hn. by rewrite !decide_False by done.
Qed.

Lemma append_str_cons (g : string) (c : ascii) (f : string) :
  (g +:+ str c) +:+ f = g +:+ String c f.
Proof. by rewrite append_assoc. Qed.

(** The characters of an unquoted field are taken as they come. *)
Lemma read_in_field (f g rest : string) (fs : list string) :
  Csv.quoted f = false -> mem_char CR f = false ->
  Csv.read_from
    {| Csv.st := Csv.IN_FIELD; Csv.field := g; Csv.fields := fs |}
    (f +:+ rest)
  = Csv.read_from
      {| Csv.st := Csv.IN_FIELD; Csv.field := g +:+ f; Csv.fields := fs |}
      rest.
Proof.
  revert g. induction f as [|c f IH]; intros g Hq Hcr.
  - by rewrite append_nil_l, append_nil_r.
  - simpl in Hq, Hcr. apply orb_false_iff in Hq as [Hc Hq].
    destruct (decide (c = CR)) as [|Hne]; [done|].
    apply special_false in Hc as (Hd & Hqc & Hlf).
    rewrite append_cons.
    change (Csv.read_from ?r (String c ?t))
      with (let '(r', out) := Csv.parse_process_char r c in
            match out with
            | Some rec => rec :: Csv.read_from r' t
            | None => Csv.read_from r' t
            end).
    rewrite step_in_field_plain by (by try apply is_newline_false).
    rewrite IH by done. by rewrite append_str_cons.
Qed.

(** Inside quotes every character is taken, a doubled quote as one quote,
    up to the closing quote. *)
Lemma read_in_quoted (f g rest : string) (fs : list string) :
  Csv.read_from
    {| Csv.st := Csv.IN_QUOTED_FIELD; Csv.field := g; Csv.fields := fs |}
    (Csv.doubled f +:+ String Csv.quotechar rest)
  = Csv.read_from
      {| Csv.st := Csv.QUOTE_IN_QUOTED_FIELD; Csv.field := g +:+ f;
         Csv.fields := fs |}
      rest.
Proof.
  revert g. induction f as [|c f IH]; intros g.
  - rewrite append_nil_l, append_nil_r. reflexivity.
  - simpl Csv.doubled. destruct (decide (c = Csv.quotechar)) as [->|Hc].
    + rewrite !append_cons.
      change (Csv.read_from
                {| Csv.st := Csv.IN_QUOTED_FIELD; Csv.field := g;
                   Csv.fields := fs |}
                (String Csv.quotechar (String Csv.quotechar ?t)))
        with (Csv.read_from
                {| Csv.st := Csv.IN_QUOTED_FIELD;
                   Csv.field := g +:+ str Csv.quotechar;
                   Csv.fields := fs |} t).
      rewrite IH. by rewrite append_str_cons.
    + rewrite append_cons.
      change (Csv.read_from ?r (String c ?t))
        with (let '(r', out) := Csv.parse_process_char r c in
              match out with
              | Some rec => rec :: Csv.read_from r' t
              | None => Csv.read_from r' t
              end).
      unfold Csv.parse_process_char. simpl.
      rewrite decide_False by done. unfold Csv.add_char. simpl.
      rewrite IH. by rewrite append_str_cons.
Qed.

Lemma read_from_cons (r : Csv.reader) (c : ascii) (text : string) :
  Csv.read_from r (String c text)
  = (let '(r', out) := Csv.parse_process_char r c in
     match out with
     | Some rec => rec :: Csv.read_from r' text
     | None => Csv.read_from r' text
     end).
Proof. reflexivity. Qed.

Lemma bare_cr_unquoted (f : string) :
  Csv.bare_cr f = false -> Csv.quoted f = false -> mem_char CR f = false.
Proof.
  unfold Csv.bare_cr. intros H Hq. rewrite Hq in H. simpl in H.
  by rewrite andb_true_r in H.
Qed.

(** One field, written and read back, up to the delimiter that follows. *)
Lemma read_field_delimiter (s : Csv.state) (fs : list string)
    (f rest : string) :
  s = Csv.START_FIELD ∨ s = Csv.START_RECORD ->
  Csv.bare_cr f = false ->
  Csv.read_from {| Csv.st := s; Csv.field := ""; Csv.fields := fs |}
    (Csv.join_append f +:+ String Csv.delimiter rest)
  = Csv.read_from
      {| Csv.st := Csv.START_FIELD; Csv.field := "";
         Csv.fields := fs ++ [f] |} rest.
Proof.
  intros Hs Hcr. unfold Csv.join_append.
  destruct (Csv.quoted f) eqn:Hq.
  - rewrite append_cons, append_assoc.
    change (str Csv.quotechar +:+ String Csv.delimiter rest)
      with (String Csv.quotechar (String Csv.delimiter rest)).
    rewrite read_from_cons.
    assert (Csv.parse_process_char
              {| Csv.st := s; Csv.field := ""; Csv.fields := fs |}
              Csv.quotechar
            = ({| Csv.st := Csv.IN_QUOTED_FIELD; Csv.field := "";
                  Csv.fields := fs |}, None)) as ->
      by (by destruct Hs as [-> | ->]).
    rewrite read_in_quoted. rewrite append_nil_l. reflexivity.
  - destruct f as [|c f].
    + rewrite append_nil_l, read_from_cons.
      by destruct Hs as [-> | ->].
    + pose proof (bare_cr_unquoted _ Hcr Hq) as Hnocr.
      simpl in Hq, Hnocr. apply orb_false_iff in Hq as [Hc Hq].
      destruct (decide (c = CR)) as [|Hne]; [done|].
      apply special_false in Hc as (Hd & Hqc & Hlf).
      rewrite append_cons, read_from_cons.
      rewrite step_start_plain by (by try apply is_newline_false).
      rewrite read_in_field by done.
      rewrite append_nil_l. reflexivity.
Qed.

(** The last field of a record, up to the line break that follows. *)
Lemma read_field_newline (s : Csv.state) (fs : list string)
    (f rest : string) :
  s = Csv.START_FIELD ∨ (s = Csv.START_RECORD ∧ f ≠ "") ->
  Csv.bare_cr f = false ->
  Csv.read_from {| Csv.st := s; Csv.field := ""; Csv.fields := fs |}
    (Csv.join_append f +:+ String LF rest)
  = (fs ++ [f]) :: Csv.read_from (Csv.fresh Csv.START_RECORD) rest.
Proof.
  intros Hs Hcr. unfold Csv.join_append.
  destruct (Csv.quoted f) eqn:Hq.
  - rewrite append_cons, append_assoc.
    change (str Csv.quotechar +:+ String LF rest)
      with (String Csv.quotechar (String LF rest)).
    rewrite read_from_cons.
    assert (Csv.parse_process_char
              {| Csv.st := s; Csv.field := ""; Csv.fields := fs |}
              Csv.quotechar
            = ({| Csv.st := Csv.IN_QUOTED_FIELD; Csv.field := "";
                  Csv.fields := fs |}, None)) as ->
      by (by destruct Hs as [-> | [-> _]]).
    rewrite read_in_quoted. rewrite append_nil_l. reflexivity.
  - destruct f as [|c f].
    + rewrite append_nil_l, read_from_cons.
      by destruct Hs as [-> | [_ ?]].
    + pose proof (bare_cr_unquoted _ Hcr Hq) as Hnocr.
      simpl in Hq, Hnocr. apply orb_false_iff in Hq as [Hc Hq].
      destruct (decide (c = CR)) as [|Hne]; [done|].
      apply special_false in Hc as (Hd & Hqc & Hlf).
      rewrite append_cons, read_from_cons.
      rewrite step_start_plain
        by (try apply is_newline_false; try done; tauto).
      rewrite read_in_field by done.
      rewrite append_nil_l. reflexivity.
Qed.

(** The fields of a record, from the first to the line break. *)
Lemma read_fields (fields fs : list string) (s : Csv.state) (rest : string) :
  fields ≠ [] ->
  Forall (fun f => Csv.bare_cr f = false) fields ->
  s = Csv.START_FIELD ∨ (s = Csv.START_RECORD ∧ fields ≠ [""]) ->
  Csv.read_from {| Csv.st := s; Csv.field := ""; Csv.fields := fs |}
    (join (str Csv.delimiter) (map Csv.join_append fields)
       +:+ String LF rest)
  = (fs ++ fields) :: Csv.read_from (Csv.fresh Csv.START_RECORD) rest.
Proof.
  revert fs s. induction fields as [|f fields IH]; intros fs s Hne Hok Hs;
    [done|].
  apply Forall_cons in Hok as [Hf Hok].
  destruct fields as [|f' fields].
  - change (join (str Csv.delimiter) (map Csv.join_append [f]))
      with (Csv.join_append f).
    apply read_field_newline; [|done].
    destruct Hs as [-> | [-> Hs]]; [by left | right].
    split; [done|]. by intros ->.
  - change (map Csv.join_append (f :: f' :: fields))
      with (Csv.join_append f :: Csv.join_append f'
              :: map Csv.join_append fields).
    rewrite join_cons_cons, !append_assoc.
    change (str Csv.delimiter +:+ ?t) with (String Csv.delimiter t).
    rewrite read_field_delimiter; [|tauto|done].
    change (Csv.join_append f' :: map Csv.join_append fields)
      with (map Csv.join_append (f' :: fields)).
    rewrite IH; [|done|done|by left].
    by rewrite <- app_assoc.
Qed.

Lemma append_eq_nil (a b : string) : a +:+ b = "" -> a = "" ∧ b = "".
Proof. destruct a; [done | discriminate]. Qed.

Lemma join_append_eq_nil (f : string) : Csv.join_append f = "" -> f = "".
Proof.
  unfold Csv.join_append. destruct (Csv.quoted f); [discriminate | done].
Qed.

(** Only the record with a single empty field comes out empty. *)
Lemma record_text_empty (fields : list string) :
  join (str Csv.delimiter) (map Csv.join_append fields) = "" ->
  fields = [] ∨ fields = [""].
Proof.
  destruct fields as [|f [|f' fields]]; [by left | |].
  - intros H. apply join_append_eq_nil in H as ->. by right.
  - change (map Csv.join_append (f :: f' :: fields))
      with (Csv.join_append f :: Csv.join_append f'
              :: map Csv.join_append fields).
    rewrite join_cons_cons. intros H.
    apply append_eq_nil in H as [_ H]. discriminate H.
Qed.

Lemma read_writerow (fields : list string) (rest : string) :
  Forall (fun f => Csv.bare_cr f = false) fields ->
  Csv.read_from (Csv.fresh Csv.START_RECORD) (Csv.writerow fields +:+ rest)
  = fields :: Csv.read_from (Csv.fresh Csv.START_RECORD) rest.
Proof.
  intros Hok. unfold Csv.writerow.
  destruct (decide (fields = [])) as [->|Hne]; [reflexivity|].
  destruct (decide (fields = [""])) as [->|Hne']; [reflexivity|].
  rewrite (bool_decide_eq_false_2 (_ = "")).
  - simpl andb. cbv iota. rewrite append_assoc.
    change (Csv.lineterminator +:+ rest) with (String LF rest).
    unfold Csv.fresh. rewrite read_fields; [done|done|done|].
    right. done.
  - intros H. apply record_text_empty in H. tauto.
Qed.

Lemma read_writerows (rows : list (list string)) :
  Forall (Forall (fun f => Csv.bare_cr f = false)) rows ->
  Csv.reader_rows (Csv.writerows rows) = rows.
Proof.
  unfold Csv.reader_rows. induction rows as [|row rows IH]; intros Hok.
  - reflexivity.
  - apply Forall_cons in Hok as [Hrow Hok].
    simpl Csv.writerows. rewrite read_writerow by done.
    by rewrite IH.
Qed.

Lemma dict_get_elem (r : record) (k : string) (v : value) :
  dict_get r k = Some v -> (k, v) ∈ r.
Proof.
  induction r as [|[k' v'] r IH]; simpl; [done|].
  destruct (decide (k' = k)) as [->|].
  - intros [= ->]. apply list_elem_of_here.
  - intros H. apply list_elem_of_further. by apply IH.
Qed.

Lemma keys_elem (r : record) (k : string) :
  k ∈ keys r -> ∃ v, (k, v) ∈ r.
Proof.
  unfold keys. rewrite map_fmap. intros H.
  apply list_elem_of_fmap in H as ([k' v] & -> & H). by exists v.
Qed.

(** The digits of an int need no quotes and hold no carriage return. *)
Lemma str_int_bare (z : Z) (tail : string) :
  tail = "" ∨ tail = ".0" -> Csv.bare_cr (str_int z +:+ tail) = false.
Proof.
  intros Htail. unfold Csv.bare_cr.
  rewrite (all_chars_mem printable_char); [done| |done].
  rewrite all_chars_app. rewrite all_chars_str_int;
    [|by apply pretty_N_char_cases | done].
  by destruct Htail as [-> | ->].
Qed.

(** C3, as the code has it: what the CSV tool writes reads back, with
    Python's csv reader, as the header row followed by one row per record
    with one field per column, provided no key and no text holds a carriage
    return that the writer leaves unquoted (and the integers are below 2^53
    in magnitude).  A text comes back as it is, commas, double quotes and
    line feeds included; an integer comes back as its digits, followed by
    [.0] in a column that holds no text and in which a record has [None]
    or lacks the key; [None] and a missing key come back as the empty
    text. *)
Theorem csv_read_back (R : list record) (self : CSVWriterTool)
    (file_name : string) (fs : files) :
  (∀ r k v, r ∈ R -> (k, v) ∈ r ->
     Csv.bare_cr k = false
     ∧ match v with
       | VStr s => Csv.bare_cr s = false
       | VInt z => (Z.abs z ≤ 2 ^ 53)%Z
       | VNone => True
       end) ->
  ∃ text,
    (CSVWriterTool_run self R (Some file_name) fs).1 !! file_name = Some text
    ∧ Csv.reader_rows text
      = ordered_union R
        :: map (fun r => map (field_text R r) (ordered_union R)) R.
Proof.
  intros Hok. exists (to_csv (Pandas.of_records R)).
  split; [apply csv_overwrite_content|].
  rewrite to_csv_rows. apply read_writerows.
  apply Forall_cons. split.
  - apply Forall_forall. intros k Hk.
    apply elem_of_ordered_union in Hk as (r & Hr & Hk).
    apply keys_elem in Hk as [v Hkv]. by destruct (Hok r k v Hr Hkv).
  - apply Forall_forall. intros row Hrow. rewrite map_fmap in Hrow.
    apply list_elem_of_fmap in Hrow as (r & -> & Hr).
    apply Forall_forall. intros cell Hcell. rewrite map_fmap in Hcell.
    apply list_elem_of_fmap in Hcell as (col & -> & _).
    unfold field_text.
    destruct (dict_get r col) as [[s|z|]|] eqn:Hget; [| |done|done].
    + apply dict_get_elem in Hget. by destruct (Hok r col _ Hr Hget).
    + destruct (ints_as_floats R col).
      * apply str_int_bare. by right.
      * rewrite <- (append_nil_r (str_int z)). apply str_int_bare. by left.
Qed.

Lemma csv_read_back_witness :
  ∃ text,
    (CSVWriterTool_run (CSVWriterTool_class module_globals)
       [[("name", VStr "A, B"); ("ports", VInt 4)]; [("name", VStr "C")]]
       (Some "out.csv") ∅).1 !! "out.csv" = Some text
    ∧ Csv.reader_rows text = [["name"; "ports"]; ["A, B"; "4.0"]; ["C"; ""]].
Proof.
  apply (csv_read_back
           [[("name", VStr "A, B"); ("ports", VInt 4)]; [("name", VStr "C")]]).
  intros r k v Hr Hkv.
  repeat (apply elem_of_cons in Hr as [-> | Hr]);
    [..| by apply elem_of_nil in Hr];
    repeat (apply elem_of_cons in Hkv as [[= -> ->] | Hkv]);
    try (by apply elem_of_nil in Hkv); by vm_compute.
Defined.

(** C3 as stated fails, in two ways.  A text holding a carriage return and
    nothing that calls for quotes is written bare, and the reader ends the
    record at the carriage return.  An integer in a column where another
    record lacks the key is written as a float: 1 comes back as 1.0. *)
Lemma csv_values_come_back_changed :
  let R := [[("a", VStr ("x" +:+ str CR +:+ "y"))]] in
  let R' := [[("a", VInt 1)]; [("b", VInt 2)]] in
  Csv.reader_rows (to_csv (Pandas.of_records R)) = [["a"]; ["x"]; ["y"]]
  ∧ Pandas.values (Pandas.of_records R)
    = [[Pandas.Val (VStr ("x" +:+ str CR +:+ "y"))]]
  ∧ Csv.reader_rows (to_csv (Pandas.of_records R'))
    = [["a"; "b"]; ["1.0"; ""]; [""; "2.0"]].
Proof. repeat split; by vm_compute. Qed.

(** ** The destination file *)

Lemma perform_append (p sep text : string) (fs : files) :
  perform [io_open p mode_a; io_write p sep; io_write p text; io_close p] fs
    !! p
  = Some ((default "" (fs !! p) +:+ sep) +:+ text).
Proof.
  unfold perform. simpl.
  destruct (fs !! p) as [old|] eqn:Hold.
  - rewrite lookup_insert_eq. simpl. rewrite lookup_insert_eq, Hold. done.
  - rewrite lookup_insert_eq. simpl. by rewrite !lookup_insert_eq.
Qed.

(** C4, as the code has it: in append mode the markdown tool writes the
    separator (two line feeds) and then the table after whatever the
    destination holds, an absent destination counting as empty; it does
    not look at the destination first.  Writing table A and then appending
    table B leaves A, the separator, B. *)
Theorem markdown_append_separator (self : MarkdownTableTool)
    (A B : list record) (p : string) (fs : files) :
  (MarkdownTableTool_run self B (Some p) (Some true) fs).1 !! p
  = Some (default "" (fs !! p) +:+ String LF (str LF)
          +:+ to_markdown (Pandas.of_records B))
  ∧ (MarkdownTableTool_run self B (Some p) (Some true)
       (MarkdownTableTool_run self A (Some p) (Some false) fs).1).1 !! p
    = Some (to_markdown (Pandas.of_records A) +:+ String LF (str LF)
            +:+ to_markdown (Pandas.of_records B)).
Proof.
  assert (∀ fs', (MarkdownTableTool_run self B (Some p) (Some true) fs').1 !! p
            = Some (default "" (fs' !! p) +:+ String LF (str LF)
                    +:+ to_markdown (Pandas.of_records B))) as Happend.
  { intros fs'. unfold MarkdownTableTool_run, MarkdownTableTool_run_io.
    change (perform
              [io_open p mode_a; io_write p (String LF (str LF));
               io_write p (to_markdown (Pandas.of_records B)); io_close p]
              fs' !! p = Some (default "" (fs' !! p) +:+ String LF (str LF)
                               +:+ to_markdown (Pandas.of_records B))).
    rewrite perform_append. by rewrite append_assoc. }
  split; [apply Happend|].
  rewrite Happend. by rewrite markdown_overwrite_content.
Qed.

(** C4 as stated fails: appending to an absent destination, and to an empty
    one, puts the separator first all the same. *)
Lemma markdown_append_to_empty_writes_separator :
  let table := to_markdown (Pandas.of_records [[("name", VStr "A")]]) in
  (MarkdownTableTool_run (MarkdownTableTool_class module_globals)
     [[("name", VStr "A")]] (Some "out.md") (Some true) ∅).1 !! "out.md"
  = Some (String LF (String LF table))
  ∧ (MarkdownTableTool_run (MarkdownTableTool_class module_globals)
       [[("name", VStr "A")]] (Some "out.md") (Some true) {[ "out.md" := "" ]}).1
      !! "out.md"
    = Some (String LF (String LF table)).
Proof. split; vm_compute; done. Qed.

(** C5, as the code has it: overwriting is open-for-writing, then write.
    Before the open the destination is untouched, once the run is through
    it holds the new text and nothing of the old, so overwriting twice
    leaves the second text only; but the open truncates, and a run cut
    short between the open and the write leaves the destination empty. *)
Theorem overwrite_truncates_then_writes (self : MarkdownTableTool)
    (self' : CSVWriterTool) (A B : list record) (p : string) (fs : files)
    (n : nat) :
  interrupted_after n (MarkdownTableTool_run_io B p false) fs !! p
  = match n with
    | 0 => fs !! p
    | 1 => Some ""
    | _ => Some (to_markdown (Pandas.of_records B))
    end
  ∧ interrupted_after n (CSVWriterTool_run_io B p) fs !! p
    = match n with
      | 0 => fs !! p
      | 1 => Some ""
      | _ => Some (to_csv (Pandas.of_records B))
      end
  ∧ (MarkdownTableTool_run self B (Some p) (Some false)
       (MarkdownTableTool_run self A (Some p) (Some false) fs).1).1 !! p
    = Some (to_markdown (Pandas.of_records B))
  ∧ (CSVWriterTool_run self' B (Some p)
       (CSVWriterTool_run self' A (Some p) fs).1).1 !! p
    = Some (to_csv (Pandas.of_records B)).
Proof.
  split; [|split; [|split]].
  - unfold interrupted_after, MarkdownTableTool_run_io, perform. simpl.
    destruct n as [|[|[|n]]]; simpl; rewrite ?take_nil; simpl;
      by rewrite ?lookup_insert_eq.
  - unfold interrupted_after, CSVWriterTool_run_io, perform. simpl.
    destruct n as [|[|[|n]]]; simpl; rewrite ?take_nil; simpl;
      by rewrite ?lookup_insert_eq.
  - apply markdown_overwrite_content.
  - apply csv_overwrite_content.
Qed.

(** C5 as stated fails: cut short right after the open, the destination
    holds neither the old text nor the new one. *)
Lemma overwrite_interrupted_leaves_empty_file :
  let fs : files := {[ "out.md" := "old table"; "out.csv" := "old,rows" ]} in
  let R := [[("name", VStr "A")]] in
  interrupted_after 1 (MarkdownTableTool_run_io R "out.md" false) fs
    !! "out.md" = Some ""
  ∧ to_markdown (Pandas.of_records R) ≠ ""
  ∧ interrupted_after 1 (CSVWriterTool_run_io R "out.csv") fs !! "out.csv"
    = Some ""
  ∧ to_csv (Pandas.of_records R) ≠ "".
Proof. repeat split; by vm_compute. Qed.

(** C6: the empty list of records gives a table without rows (and without
    columns); both tools run through on it, returning their message: the
    markdown tool leaves an empty file, the CSV tool a file holding the
    line break that ends the empty header row. *)
Theorem empty_records_render (self : MarkdownTableTool)
    (self' : CSVWriterTool) (p : string) (fs : files) :
  Pandas.of_records [] = {| Pandas.columns := []; Pandas.values := [] |}
  ∧ length (Pandas.values (Pandas.of_records [])) = 0
  ∧ MarkdownTableTool_run self [] (Some p) (Some false) fs
    = (<[p := ""]> fs, "Markdown table generated and saved as " +:+ p)
  ∧ CSVWriterTool_run self' [] (Some p) fs
    = (<[p := str LF]> fs, "CSV file generated and saved as " +:+ p)
  ∧ Csv.reader_rows (to_csv (Pandas.of_records [])) = [[]].
Proof.
  split; [done|]. split; [done|]. split; [|split; [|done]].
  - unfold MarkdownTableTool_run, MarkdownTableTool_run_io, perform. simpl.
    f_equal. rewrite lookup_insert_eq. simpl. by rewrite insert_insert_eq.
  - unfold CSVWriterTool_run, CSVWriterTool_run_io, perform. simpl.
    f_equal. rewrite lookup_insert_eq. simpl. by rewrite insert_insert_eq.
Qed.

(** ** The pipeline's order *)

Lemma context_precedes_sound (ts : list Task) (earlier : list nat) :
  context_precedes earlier ts = true ->
  ∀ i t c, ts !! i = Some t -> c ∈ context t ->
    c ∈ earlier ∨ ∃ j t', j < i ∧ ts !! j = Some t' ∧ task_id t' = c.
Proof.
  revert earlier. induction ts as [|t0 ts IH]; intros earlier Hok i t c Hi Hc;
    [done|].
  simpl in Hok. apply andb_true_iff in Hok as [Hhere Hrest].
  destruct i as [|i]; simpl in Hi.
  - injection Hi as ->. left.
    rewrite forallb_forall in Hhere.
    apply list_elem_of_In in Hc. apply Hhere in Hc.
    by apply bool_decide_eq_true in Hc.
  - destruct (IH _ Hrest i t c Hi Hc) as [Hin | (j & t' & Hj & Ht' & Hid)].
    + apply elem_of_app in Hin as [Hin | Hin]; [by left|].
      apply list_elem_of_singleton in Hin as ->.
      right. exists 0, t0. split; [lia | done].
    + right. exists (S j), t'. split; [lia | done].
Qed.

(** C8: in the crew the script builds, whatever the module's globals, the
    product type and the attributes, every task's context names only tasks
    placed before it in the crew's task list; the collection task has no
    context, and the two analysis tasks have the collection task, the first
    of the list, as their only context. *)
Theorem crew_context_precedes (m : Module_state)
    (product_type review_attributes : string) :
  let crew := build_crew m product_type review_attributes in
  context_precedes [] (tasks crew) = true
  ∧ (∀ i t c, tasks crew !! i = Some t -> c ∈ context t ->
       ∃ j t', j < i ∧ tasks crew !! j = Some t' ∧ task_id t' = c)
  ∧ (∃ collect markdown csv,
       tasks crew = [collect; markdown; csv]
       ∧ context collect = []
       ∧ context markdown = [task_id collect]
       ∧ context csv = [task_id collect]
       ∧ NoDup (map task_id (tasks crew)))
  ∧ process crew = sequential.
Proof.
  intros crew.
  assert (context_precedes [] (tasks crew) = true) as Hok by reflexivity.
  split; [done|]. split; [|split; [|done]].
  - intros i t c Hi Hc.
    destruct (context_precedes_sound _ _ Hok i t c Hi Hc) as [Hin | H];
      [by apply elem_of_nil in Hin | done].
  - eexists _, _, _. split; [reflexivity|]. simpl.
    repeat split. apply (NoDup_ListNoDup [0; 1; 2]).
    repeat constructor; simpl; intuition lia.
Qed.

(** ** Default destinations *)

Lemma perform_other (p q : string) (ops : list io) (fs : files) :
  p ≠ q ->
  Forall (fun op => match op with
                    | io_open p' _ | io_write p' _ | io_close p' => p' = p
                    end) ops ->
  perform ops fs !! q = fs !! q.
Proof.
  intros Hpq. unfold perform. revert fs.
  induction ops as [|op ops IH]; intros fs Hops; [done|].
  apply Forall_cons in Hops as [Hop Hops]. simpl. rewrite IH by done.
  destruct op as [p' [] | p' text | p']; simpl in *; subst p'.
  - by rewrite lookup_insert_ne.
  - destruct (fs !! p); [done | by rewrite lookup_insert_ne].
  - by rewrite lookup_insert_ne.
  - done.
Qed.

(** C10: called without a file name, the markdown tool writes to
    router_review.md and the CSV tool to router_review.csv.  The defaults
    were taken from the globals when the classes were defined: rebinding
    [markdown_output] and [csv_output] afterwards changes neither where
    such a call writes nor any other file, while [create_tasks], which
    reads the globals when it is called, passes the new names on as the
    tasks' output files. *)
Theorem default_file_names_fixed_at_definition (md csv : string)
    (data : list record) (fs : files) :
  let m := reassign_outputs md csv module_loaded in
  MarkdownTableTool_run (cls_MarkdownTableTool m) data None None fs
  = MarkdownTableTool_run (cls_MarkdownTableTool m) data
      (Some "router_review.md") (Some false) fs
  ∧ (MarkdownTableTool_run (cls_MarkdownTableTool m) data None None fs).1
      !! "router_review.md"
    = Some (to_markdown (Pandas.of_records data))
  ∧ (∀ q, q ≠ "router_review.md" ->
       (MarkdownTableTool_run (cls_MarkdownTableTool m) data None None fs).1
         !! q = fs !! q)
  ∧ CSVWriterTool_run (cls_CSVWriterTool m) data None fs
    = CSVWriterTool_run (cls_CSVWriterTool m) data
        (Some "router_review.csv") fs
  ∧ (CSVWriterTool_run (cls_CSVWriterTool m) data None fs).1
      !! "router_review.csv"
    = Some (to_csv (Pandas.of_records data))
  ∧ (∀ q, q ≠ "router_review.csv" ->
       (CSVWriterTool_run (cls_CSVWriterTool m) data None fs).1 !! q
       = fs !! q)
  ∧ map output_file (tasks (build_crew m "p" "a"))
    = [None; Some md; Some csv].
Proof.
  intros m. split; [reflexivity|]. split.
  { apply (markdown_overwrite_content (cls_MarkdownTableTool m) data
             "router_review.md" fs). }
  split.
  { intros q Hq. apply (perform_other "router_review.md"); [done|].
    repeat constructor. }
  split; [reflexivity|]. split.
  { apply (csv_overwrite_content (cls_CSVWriterTool m) data
             "router_review.csv" fs). }
  split; [|reflexivity].
  intros q Hq. apply (perform_other "router_review.csv"); [done|].
  repeat constructor.
Qed.

(** ** The run of the script's crew *)

Section KickoffFacts.

Variable construct : gmap string string -> Construction -> option exn.
Variable execute_task : gmap string string -> Task -> string -> exn + string.
Variable run_hierarchical : gmap string string -> Crew -> Run.
Variable environ : gmap string string.

(** The crew of the script, kicked off: the three tasks in turn, the two
    analysis tasks with the collection task's output as their context. *)
Lemma kickoff_script_crew (m : Module_state)
    (product_type review_attributes : string) :
  ∃ collect markdown csv,
    tasks (build_crew m product_type review_attributes)
    = [collect; markdown; csv]
    ∧ map task_id [collect; markdown; csv] = [0; 1; 2]
    ∧ kickoff execute_task run_hierarchical environ
        (build_crew m product_type review_attributes)
      = match execute_task environ collect "" with
        | inl e => {| executed := [0]; outputs := ∅; result := inl e |}
        | inr reviews =>
            match execute_task environ markdown reviews with
            | inl e =>
                {| executed := [0; 1]; outputs := {[0 := reviews]};
                   result := inl e |}
            | inr table =>
                match execute_task environ csv reviews with
                | inl e =>
                    {| executed := [0; 1; 2];
                       outputs := <[1 := table]> {[0 := reviews]};
                       result := inl e |}
                | inr text =>
                    {| executed := [0; 1; 2];
                       outputs :=
                         <[2 := text]> (<[1 := table]> {[0 := reviews]});
                       result := inr text |}
                end
            end
        end.
Proof.
  eexists _, _, _. split; [reflexivity|]. split; [reflexivity|].
  unfold kickoff.
  cbn [process tasks build_crew create_tasks create_agents run_sequential
       task_context context task_id app].
  destruct (execute_task environ _ "") as [e|reviews]; [done|].
  cbn [omap list_omap]. rewrite lookup_insert_eq. cbn [join].
  rewrite insert_empty.
  destruct (execute_task environ _ reviews) as [e|table]; [done|].
  cbn [omap list_omap]. rewrite lookup_insert_ne by done.
  rewrite lookup_singleton_eq. cbn [join].
  by destruct (execute_task environ _ reviews).
Qed.

Lemma first_raise_none (calls : list Construction) :
  (∀ c, construct environ c = None) ->
  first_raise construct environ calls = None.
Proof.
  intros Hnone. induction calls as [|c calls IH]; [done|]. simpl.
  by rewrite Hnone.
Qed.

(** What [create_and_kickoff_crew] returns or raises. *)
Lemma create_and_kickoff_result (m : Module_state)
    (product_type review_attributes : string) :
  ∃ collect markdown csv,
    tasks (build_crew m product_type review_attributes)
    = [collect; markdown; csv]
    ∧ result (create_and_kickoff_crew construct execute_task run_hierarchical
                environ m product_type review_attributes)
      = match first_raise construct environ
                (constructor_calls
                   (build_crew m product_type review_attributes)) with
        | Some e => inl e
        | None =>
            match execute_task environ collect "" with
            | inl e => inl e
            | inr reviews =>
                match execute_task environ markdown reviews with
                | inl e => inl e
                | inr _ => execute_task environ csv reviews
                end
            end
        end.
Proof.
  destruct (kickoff_script_crew m product_type review_attributes)
    as (collect & markdown & csv & Hts & _ & Hrun).
  exists collect, markdown, csv. split; [done|].
  unfold create_and_kickoff_crew.
  destruct (first_raise _ _ _); [done|]. rewrite Hrun.
  destruct (execute_task environ collect "") as [e|reviews]; [done|].
  destruct (execute_task environ markdown reviews) as [e|table]; [done|].
  by destruct (execute_task environ csv reviews).
Qed.

(** C7, as the code has it: once the crew is constructed, the tasks run in
    list order and the first exception ends the run.  The tasks before the
    failing one were run and their outputs are stored on the task objects,
    the failing task is the last one run, and [create_and_kickoff_crew]
    raises that very exception: it returns nothing, so what comes out of
    it is the exception alone, neither the failing stage's name nor the
    earlier outputs. *)
Theorem kickoff_stops_at_first_failure (m : Module_state)
    (product_type review_attributes : string) :
  let crew := build_crew m product_type review_attributes in
  let run :=
    create_and_kickoff_crew construct execute_task run_hierarchical environ
      m product_type review_attributes in
  first_raise construct environ (constructor_calls crew) = None ->
  ∃ collect markdown csv,
    tasks crew = [collect; markdown; csv]
    ∧ (∀ e, execute_task environ collect "" = inl e ->
         run = {| executed := [task_id collect]; outputs := ∅;
                  result := inl e |})
    ∧ (∀ reviews e,
         execute_task environ collect "" = inr reviews ->
         execute_task environ markdown reviews = inl e ->
         run = {| executed := [task_id collect; task_id markdown];
                  outputs := {[task_id collect := reviews]};
                  result := inl e |})
    ∧ (∀ reviews table e,
         execute_task environ collect "" = inr reviews ->
         execute_task environ markdown reviews = inr table ->
         execute_task environ csv reviews = inl e ->
         run = {| executed :=
                    [task_id collect; task_id markdown; task_id csv];
                  outputs :=
                    <[task_id markdown := table]>
                      {[task_id collect := reviews]};
                  result := inl e |}).
Proof.
  intros crew run Hmade. subst run. unfold create_and_kickoff_crew.
  fold crew. rewrite Hmade. subst crew.
  destruct (kickoff_script_crew m product_type review_attributes)
    as (collect & markdown & csv & Hts & Hids & ->).
  injection Hids as Hcollect Hmarkdown Hcsv.
  exists collect, markdown, csv. rewrite Hcollect, Hmarkdown, Hcsv.
  split; [done|].
  split; [by intros e ->|].
  split; [by intros reviews e -> ->|].
  by intros reviews table e -> -> ->.
Qed.

End KickoffFacts.

Lemma kickoff_stops_at_first_failure_witness :
  create_and_kickoff_crew constructors_return (fails_after_first "reviews")
    no_manager ∅ module_loaded "routers" "price"
  = {| executed := [0; 1]; outputs := {[0 := "reviews"]};
       result := inl (Exception "stage failed") |}.
Proof.
  destruct (kickoff_stops_at_first_failure constructors_return
              (fails_after_first "reviews") no_manager ∅ module_loaded
              "routers" "price" eq_refl)
    as (collect & markdown & csv & Hts & _ & Hsecond & _).
  injection Hts as <- <- <-.
  exact (Hsecond "reviews" (Exception "stage failed") eq_refl eq_refl).
Defined.

(** C7 as stated fails: two runs whose first stage returned different
    outputs and whose second stage failed surface the same thing, the
    exception; the first stage's output is in neither. *)
Lemma failure_surfaces_no_earlier_output :
  let runA :=
    create_and_kickoff_crew constructors_return
      (fails_after_first "reviews A") no_manager ∅ module_loaded
      "routers" "price" in
  let runB :=
    create_and_kickoff_crew constructors_return
      (fails_after_first "reviews B") no_manager ∅ module_loaded
      "routers" "price" in
  result runA = inl (Exception "stage failed")
  ∧ result runB = result runA
  ∧ outputs runA !! 0 = Some "reviews A"
  ∧ outputs runB !! 0 = Some "reviews B"
  ∧ executed runA = [0; 1].
Proof. repeat split; by vm_compute. Qed.

(** C9, as the code has it: the script checks no credential.  It loads the
    .env file into the environment, a variable that is already set keeping
    its value, and from there on the collaborators decide, each given that
    environment: the first exception one of them raises, while a tool, an
    agent, a task or the crew is constructed or while a task runs, ends
    the script as it is, with nothing printed; when none raises, whatever
    the environment holds, the script runs the three tasks and prints the
    result. *)
Theorem script_checks_no_credentials
    (construct : gmap string string -> Construction -> option exn)
    (execute_task : gmap string string -> Task -> string -> exn + string)
    (run_hierarchical : gmap string string -> Crew -> Run)
    (dotenv environ : gmap string string) :
  let env := load_dotenv dotenv environ in
  let out := script construct execute_task run_hierarchical dotenv environ in
  let crew :=
    build_crew module_loaded (product_type module_globals)
      (review_attributes module_globals) in
  (∀ k, env !! k = match environ !! k with
                   | Some v => Some v
                   | None => dotenv !! k
                   end)
  ∧ (∃ collect markdown csv,
       tasks crew = [collect; markdown; csv]
       ∧ result out.1
         = match first_raise construct env (constructor_calls crew) with
           | Some e => inl e
           | None =>
               match execute_task env collect "" with
               | inl e => inl e
               | inr reviews =>
                   match execute_task env markdown reviews with
                   | inl e => inl e
                   | inr _ => execute_task env csv reviews
                   end
               end
           end)
  ∧ out.2 = match result out.1 with
            | inr text => Some text
            | inl _ => None
            end
  ∧ ((∀ c, construct env c = None) ->
     (∀ t ctx, ∃ text, execute_task env t ctx = inr text) ->
     executed out.1 = [0; 1; 2]
     ∧ ∃ text, result out.1 = inr text ∧ out.2 = Some text).
Proof.
  intros env out crew. split.
  { intros k. subst env. unfold load_dotenv. rewrite lookup_union.
    destruct (environ !! k), (dotenv !! k); done. }
  split.
  { apply (create_and_kickoff_result construct execute_task
             run_hierarchical env). }
  split; [done|].
  intros Hmade Hruns. subst out. unfold script. cbn [fst snd].
  fold env. unfold create_and_kickoff_crew.
  rewrite first_raise_none by done.
  destruct (kickoff_script_crew execute_task run_hierarchical env
              module_loaded (product_type (globals module_loaded))
              (review_attributes (globals module_loaded)))
    as (collect & markdown & csv & _ & _ & ->).
  destruct (Hruns collect "") as [reviews ->].
  destruct (Hruns markdown reviews) as [table ->].
  destruct (Hruns csv reviews) as [text ->].
  split; [done|]. by exists text.
Qed.

Lemma script_checks_no_credentials_witness :
  let out :=
    script constructors_return needs_serper_key no_manager
      {[ "SERPER_API_KEY" := "key from the .env file" ]} ∅ in
  executed out.1 = [0; 1; 2]
  ∧ ∃ text, result out.1 = inr text ∧ out.2 = Some text.
Proof.
  apply (script_checks_no_credentials constructors_return needs_serper_key
           no_manager {[ "SERPER_API_KEY" := "key from the .env file" ]} ∅).
  - done.
  - intros t ctx. by eexists.
Defined.

(** C9 as stated fails: with neither the environment nor the .env file
    holding a key, no check of the script stands before the collaborators.
    When the search tool wants its key at its first call, the first task
    is handed to the framework and its [KeyError] is what comes out; when
    the agent's constructor wants the key of the language model, the
    constructor's own error comes out, after five tools were constructed. *)
Lemma missing_credential_reaches_framework :
  let out := script constructors_return needs_serper_key no_manager ∅ ∅ in
  let out' := script agent_needs_openai_key needs_serper_key no_manager ∅ ∅ in
  executed out.1 = [0]
  ∧ result out.1 = inl (Exception "KeyError: SERPER_API_KEY")
  ∧ out.2 = None
  ∧ result out'.1 = inl (Exception "ValidationError: OPENAI_API_KEY")
  ∧ out'.2 = None.
Proof. repeat split; by vm_compute. Qed.

(** The constructor calls on the way to the script's crew, by kind. *)
Example constructor_calls_in_program_order :
  map (fun c => match c with
                | new_Tool SerperDevTool => "SerperDevTool"
                | new_Tool EXASearchTool => "EXASearchTool"
                | new_Tool ScrapeWebsiteTool => "ScrapeWebsiteTool"
                | new_Tool (MarkdownTableTool_inst _) => "MarkdownTableTool"
                | new_Tool (CSVWriterTool_inst _) => "CSVWriterTool"
                | new_Agent a => "Agent: " +:+ role a
                | new_Task t => "Task"
                | new_Crew _ => "Crew"
                end)
    (constructor_calls
       (build_crew module_loaded (product_type module_globals)
          (review_attributes module_globals)))
  = ["SerperDevTool"; "EXASearchTool"; "ScrapeWebsiteTool";
     "MarkdownTableTool"; "CSVWriterTool";
     "Agent: Data Collector"; "Agent: Data Analyzer";
     "ScrapeWebsiteTool"; "Task"; "MarkdownTableTool"; "Task";
     "CSVWriterTool"; "Task"; "Crew"].
Proof. reflexivity. Qed.

(** * Further properties of the script *)

(** ** The tools and the files around the destination *)

Lemma perform_markdown_io (data : list record) (p : string) (append : bool)
    (fs : files) :
  perform (MarkdownTableTool_run_io data p append) fs
  = <[p := (if append then default "" (fs !! p) +:+ String LF (str LF)
            else "")
           +:+ to_markdown (Pandas.of_records data)]> fs.
Proof.
  unfold MarkdownTableTool_run_io, perform.
  destruct append; cbn [fold_left app io_step].
  - destruct (fs !! p) as [old|] eqn:Hold.
    + rewrite lookup_insert_eq, Hold. cbn [default from_option id].
      by rewrite insert_insert_eq.
    + rewrite !lookup_insert_eq. cbn [default from_option id].
      by rewrite !insert_insert_eq.
  - rewrite lookup_insert_eq. cbn [default from_option id].
    by rewrite insert_insert_eq.
Qed.

Lemma markdown_run_files (self : MarkdownTableTool) (data : list record)
    (p : string) (append : bool) (fs : files) :
  (MarkdownTableTool_run self data (Some p) (Some append) fs).1
  = <[p := (if append then default "" (fs !! p) +:+ String LF (str LF)
            else "")
           +:+ to_markdown (Pandas.of_records data)]> fs.
Proof. apply perform_markdown_io. Qed.

Lemma csv_run_files (self : CSVWriterTool) (data : list record)
    (p : string) (fs : files) :
  (CSVWriterTool_run self data (Some p) fs).1
  = <[p := to_csv (Pandas.of_records data)]> fs.
Proof.
  change ((CSVWriterTool_run self data (Some p) fs).1)
    with (perform (CSVWriterTool_run_io data p) fs).
  unfold CSVWriterTool_run_io, perform. cbn [fold_left io_step].
  rewrite lookup_insert_eq. cbn [default from_option id].
  by rewrite insert_insert_eq.
Qed.

(** X1: a run of either tool, in either mode, creates or rewrites its
    destination and nothing else: afterwards the directory holds the files
    it held before and the destination, and every other file has the
    content it had. *)
Theorem tool_run_touches_only_destination (self : MarkdownTableTool)
    (self' : CSVWriterTool) (data : list record) (p : string)
    (append : bool) (fs : files) :
  let after_md :=
    (MarkdownTableTool_run self data (Some p) (Some append) fs).1 in
  let after_csv := (CSVWriterTool_run self' data (Some p) fs).1 in
  dom after_md = dom fs ∪ {[p]}
  ∧ (∀ q, q ≠ p -> after_md !! q = fs !! q)
  ∧ dom after_csv = dom fs ∪ {[p]}
  ∧ (∀ q, q ≠ p -> after_csv !! q = fs !! q).
Proof.
  intros after_md after_csv. subst after_md after_csv.
  rewrite markdown_run_files, csv_run_files.
  rewrite !dom_insert_L.
  repeat split;
    first [ apply (comm_L (∪)) | intros q Hq; by rewrite lookup_insert_ne ].
Qed.

(** X2: in overwrite mode the last run decides: after a run of a tool on
    [B], the whole directory is what it would be had the earlier run of
    that tool on [A], in whatever mode, never happened; in particular
    running a tool twice on the same data is the same as running it
    once. *)
Theorem overwrite_forgets_earlier_run (self : MarkdownTableTool)
    (self' : CSVWriterTool) (A B : list record) (p : string)
    (append : bool) (fs : files) :
  (MarkdownTableTool_run self B (Some p) (Some false)
     (MarkdownTableTool_run self A (Some p) (Some append) fs).1).1
  = (MarkdownTableTool_run self B (Some p) (Some false) fs).1
  ∧ (CSVWriterTool_run self' B (Some p)
       (CSVWriterTool_run self' A (Some p) fs).1).1
    = (CSVWriterTool_run self' B (Some p) fs).1.
Proof.
  rewrite !markdown_run_files, !csv_run_files.
  by rewrite !insert_insert_eq.
Qed.

(** X3: the file a tool's message names is the file the tool wrote, with
    the file name given or left to the default: the message is the tool's
    fixed sentence followed by a path, that path exists afterwards, and no
    other path has changed. *)
Theorem message_names_written_file (self : MarkdownTableTool)
    (self' : CSVWriterTool) (data : list record) (file_name : option string)
    (append : option bool) (fs : files) :
  (∃ p,
     (MarkdownTableTool_run self data file_name append fs).2
     = "Markdown table generated and saved as " +:+ p
     ∧ is_Some ((MarkdownTableTool_run self data file_name append fs).1 !! p)
     ∧ ∀ q, q ≠ p ->
         (MarkdownTableTool_run self data file_name append fs).1 !! q
         = fs !! q)
  ∧ (∃ p,
       (CSVWriterTool_run self' data file_name fs).2
       = "CSV file generated and saved as " +:+ p
       ∧ is_Some ((CSVWriterTool_run self' data file_name fs).1 !! p)
       ∧ ∀ q, q ≠ p ->
           (CSVWriterTool_run self' data file_name fs).1 !! q = fs !! q).
Proof.
  split.
  - exists (default (md_run_default_file_name self) file_name).
    split; [done|].
    change ((MarkdownTableTool_run self data file_name append fs).1)
      with (perform
              (MarkdownTableTool_run_io data
                 (default (md_run_default_file_name self) file_name)
                 (default (md_run_default_append self) append)) fs).
    rewrite perform_markdown_io. split.
    + rewrite lookup_insert_eq. by eexists.
    + intros q Hq. by rewrite lookup_insert_ne.
  - exists (default (csv_run_default_file_name self') file_name).
    split; [done|].
    pose proof (csv_run_files self' data
                  (default (csv_run_default_file_name self') file_name) fs)
      as Hfiles.
    change ((CSVWriterTool_run self' data
               (Some (default (csv_run_default_file_name self') file_name))
               fs).1)
      with ((CSVWriterTool_run self' data file_name fs).1) in Hfiles.
    rewrite Hfiles. split.
    + rewrite lookup_insert_eq. by eexists.
    + intros q Hq. by rewrite lookup_insert_ne.
Qed.

(** ** Columns *)





(** X4: records added at the end of the list never move or remove a
    column: the columns of the longer list are the columns of the shorter
    one, in the same order, followed by the keys that are new. *)
Theorem columns_stable_under_added_records (R1 R2 : list record) :
  Pandas.columns (Pandas.of_records (R1 ++ R2))
  = Pandas.columns (Pandas.of_records R1)
    ++ filter (fun k => k ∉ Pandas.columns (Pandas.of_records R1))
         (Pandas.columns (Pandas.of_records R2))
  ∧ Pandas.columns (Pandas.of_records R1)
    `prefix_of` Pandas.columns (Pandas.of_records (R1 ++ R2)).
Proof.
  assert (Pandas.columns (Pandas.of_records (R1 ++ R2))
          = Pandas.columns (Pandas.of_records R1)
            ++ filter (fun k => k ∉ Pandas.columns (Pandas.of_records R1))
                 (Pandas.columns (Pandas.of_records R2))) as Heq.
  { rewrite !columns_first_seen. unfold ordered_union.
    rewrite map_app, concat_app, first_seen_app. f_equal.
    apply list_filter_iff. intros k. by rewrite first_seen_elem. }
  split; [done|]. rewrite Heq. by eexists.
Qed.




(** ** The crew and its run *)

(** Membership in a list written out in full. *)
Ltac listed :=
  first [ apply list_elem_of_here
        | apply list_elem_of_further; listed ].

(** X6: in the crew the script builds, every task is given to an agent of
    the crew, and the tools listed for the task are among the tools of
    that agent: the collection task goes to the collector with its scrape
    tool, each analysis task to the analyzer with one of its writer
    tools. *)
Theorem tasks_keep_to_their_agents_tools (m : Module_state)
    (product_type review_attributes : string) :
  let crew := build_crew m product_type review_attributes in
  Forall (fun t => agent t ∈ agents crew
                   ∧ task_tools t ⊆ agent_tools (agent t)) (tasks crew)
  ∧ map (fun t => role (agent t)) (tasks crew)
    = ["Data Collector"; "Data Analyzer"; "Data Analyzer"].
Proof.
  intros crew. split; [|reflexivity].
  subst crew. unfold build_crew, create_agents, create_tasks.
  cbn [tasks agents agent task_tools agent_tools].
  repeat apply Forall_cons_2; [| | |apply Forall_nil_2];
    (split; [listed|]); cbn [agent task_tools agent_tools];
    intros tool Htool; apply list_elem_of_singleton in Htool as ->;
    listed.
Qed.

(** X8: how the outputs travel in the script's crew: the collection task
    is run with the empty context, the markdown task and the CSV task are
    both run with the collection task's output as context (the CSV task
    does not see the markdown task's output), and the value returned is
    the CSV task's output; the first exception raised, by a constructor on
    the way to the crew or by a task, ends the run. *)
Theorem analysis_tasks_read_the_collected_reviews
    (construct : gmap string string -> Construction -> option exn)
    (execute_task : gmap string string -> Task -> string -> exn + string)
    (run_hierarchical : gmap string string -> Crew -> Run)
    (environ : gmap string string) (m : Module_state)
    (product_type review_attributes : string) :
  ∃ collect markdown csv,
    tasks (build_crew m product_type review_attributes)
    = [collect; markdown; csv]
    ∧ result (create_and_kickoff_crew construct execute_task run_hierarchical
                environ m product_type review_attributes)
      = match first_raise construct environ
                (constructor_calls
                   (build_crew m product_type review_attributes)) with
        | Some e => inl e
        | None =>
            match execute_task environ collect "" with
            | inl e => inl e
            | inr reviews =>
                match execute_task environ markdown reviews with
                | inl e => inl e
                | inr _ => execute_task environ csv reviews
                end
            end
        end.
Proof. apply create_and_kickoff_result. Qed.

(** X9: in append mode nothing that is in the destination is lost, even
    by a run cut short: at every point of the run the destination holds
    what it held before, followed by what the run has written so far. *)
Theorem append_keeps_old_content (data : list record) (p old : string)
    (fs : files) (n : nat) :
  fs !! p = Some old ->
  ∃ written,
    interrupted_after n (MarkdownTableTool_run_io data p true) fs !! p
    = Some (old +:+ written).
Proof.
  intros Hold. unfold interrupted_after, MarkdownTableTool_run_io, perform.
  cbn [app].
  destruct n as [|[|[|n]]]; cbn [take fold_left io_step]; rewrite ?Hold.
  - exists "". by rewrite append_nil_r.
  - exists "". by rewrite append_nil_r.
  - exists (String LF (str LF)). by rewrite lookup_insert_eq.
  - exists (String LF (str LF) +:+ to_markdown (Pandas.of_records data)).
    assert (∀ (fs' : files), fold_left io_step (take n [io_close p]) fs' = fs')
      as -> by (intros fs'; by destruct n as [|[|n]]).
    rewrite !lookup_insert_eq. cbn [default from_option id].
    by rewrite append_assoc.
Qed.

Lemma append_keeps_old_content_witness :
  ∃ written,
    interrupted_after 2
      (MarkdownTableTool_run_io [[("name", VStr "A")]] "out.md" true)
      {[ "out.md" := "old table" ]} !! "out.md"
    = Some ("old table" +:+ written).
Proof.
  apply (append_keeps_old_content [[("name", VStr "A")]] "out.md" "old table").
  by vm_compute.
Defined.
